(** * Rule-condition editor and application-template configuration

    A shallow embedding of three modules of the console:

    - [rule-conditions.tsx]: the [RuleConditions] component with its nested
      components [RuleExpression], [ConditionValueInput],
      [ResourceListSelect] and [ValueInputAutocomplete], and the debounced
      dispatcher [handleExpressionChangeDebounced];
    - [application-templates-config.ts]: [getApplicationTemplatesConfig];
    - [dynamic-connector-form]: [getFieldComponent], [isToggle],
      [getFieldType] and the form [DynamicConnectorForm].

    A function component is embedded as a function from its props, its hook
    state and the results of its data-fetch hooks to the view it returns,
    paired with the calls it makes while rendering.  Event handlers are
    fields of the view: functions from the event's value to the list of
    actions the handler performs, in order. *)

From stdpp Require Import gmap strings list fin_maps.
From Stdlib Require Import ZArith Lia Ascii.

Local Open Scope string_scope.
Local Open Scope list_scope.

(** ** JavaScript values the source relies on *)

(** [x ? .. : ..], [x && ..], [x || d] on a possibly-undefined string: the
    empty string and [undefined]/[null] are falsy. *)
Definition truthy_str (s : option string) : bool :=
  match s with
  | Some s => negb (bool_decide (s = EmptyString))
  | None => false
  end.

(** [readonly] is declared [readonly?: boolean]: [undefined] is falsy. *)
Definition truthy_bool (b : option bool) : bool :=
  match b with
  | Some b => b
  | None => false
  end.

(** [a || d] for strings. *)
Definition or_default (a : option string) (d : string) : string :=
  match a with
  | Some s => if bool_decide (s = EmptyString) then d else s
  | None => d
  end.

(** [a > b] on possibly-undefined numbers: a comparison with [undefined] is
    [false]. *)
Definition js_gt (a b : option Z) : bool :=
  match a, b with
  | Some a, Some b => (b <? a)%Z
  | _, _ => false
  end.

(** [xs?.length > 1]. *)
Definition length_gt_1 {A} (xs : option (list A)) : bool :=
  match xs with
  | Some l => bool_decide (1 < length l)%nat
  | None => false
  end.

(** Template-literal interpolation of a possibly-undefined string. *)
Definition interpolate (s : option string) : string :=
  match s with
  | Some s => s
  | None => "undefined"
  end.

(** The replacement text of [s.replace(pat, by)] with its patterns expanded:
    [$$] is a dollar sign, [$&] the matched text, [$`] the text before the
    match and [$'] the text after it; a string pattern has no groups, so
    any other [$] stands for itself. *)
Fixpoint substitute (matched before after replacement : string) : string :=
  match replacement with
  | EmptyString => EmptyString
  | String c tail =>
      match tail with
      | EmptyString => String c EmptyString
      | String d rest =>
          if bool_decide (c = "$"%char)
          then if bool_decide (d = "$"%char)
               then String "$" (substitute matched before after rest)
               else if bool_decide (d = "&"%char)
               then matched +:+ substitute matched before after rest
               else if bool_decide (d = "`"%char)
               then before +:+ substitute matched before after rest
               else if bool_decide (d = "'"%char)
               then after +:+ substitute matched before after rest
               else String c (substitute matched before after tail)
          else String c (substitute matched before after tail)
      end
  end.

(** [replace] below a prefix already scanned: [before] is the text in front
    of [s]. *)
Fixpoint replaceAfter (before pat by_ s : string) : string :=
  if String.prefix pat s
  then
    let after :=
      String.substring (String.length pat) (String.length s - String.length pat) s in
    substitute pat before after by_ +:+ after
  else match s with
       | EmptyString => EmptyString
       | String c s' => String c (replaceAfter (before +:+ String c EmptyString) pat by_ s')
       end.

(** [s.replace(pat, by)] for a string [pat]: the first occurrence of [pat]
    is replaced by the expanded replacement text. *)
Definition replace (pat by_ s : string) : string :=
  replaceAfter EmptyString pat by_ s.

(** ** models/rules *)

Inductive AdjoiningOperatorTypes := And | Or.

Inductive ExpressionFieldTypes := Field | Operator | Value.

#[global] Instance AdjoiningOperatorTypes_eq_dec : EqDecision AdjoiningOperatorTypes.
Proof. solve_decision. Defined.

#[global] Instance ExpressionFieldTypes_eq_dec : EqDecision ExpressionFieldTypes.
Proof. solve_decision. Defined.

Record ConditionExpressionInterface := {
  expr_id : string;
  expr_field : string;
  expr_operator : string;
  expr_value : string
}.

Record RuleConditionInterface := {
  cond_id : string;
  cond_condition : AdjoiningOperatorTypes;
  cond_expressions : list ConditionExpressionInterface
}.

Record RuleInterface := {
  rule_id : string;
  rule_condition : AdjoiningOperatorTypes;
  rule_rules : list RuleConditionInterface
}.

(** ** models/meta *)

Record ListDataInterface := {
  ld_name : string;
  ld_displayName : string
}.

Record LinkInterface := {
  link_href : string;
  link_rel : string
}.

Record ExpressionValueInterface := {
  inputType : string;
  valueReferenceAttribute : option string;
  valueDisplayAttribute : option string;
  values : option (list ListDataInterface);
  links : option (list LinkInterface)
}.

Record ConditionExpressionMetaInterface := {
  meta_field : option ListDataInterface;
  meta_operators : option (list ListDataInterface);
  meta_value : option ExpressionValueInterface
}.

(** ** models/resource and the data-fetch hook *)

(** A resource is an object read by attribute name
    ([resource[valueReferenceAttribute]]). *)
Abbreviation ResourceInterface := (gmap string string).

(** The wire shape of a resource collection: arrays of resources keyed by
    resource type, with [totalResults] and [count]. *)
Record ResourceListData := {
  totalResults : option Z;
  count : option Z;
  collections : gmap string (list ResourceInterface)
}.

(** What [useGetResourceListOrResourceDetails] returns. *)
Record RequestResult (T : Type) := {
  data : option T;
  isLoading : bool;
  error : option string
}.
Arguments data {T} _.
Arguments isLoading {T} _.
Arguments error {T} _.

(** ** The rules context and the actions of handlers *)

(** The arguments of [updateConditionExpression]; the changed value can be
    [undefined] ([fetchedResourcesList[resourceType][0]?.id]). *)
Record UpdateArgs := {
  changedValue : option string;
  ruleId : string;
  conditionId : string;
  expressionId : string;
  fieldName : ExpressionFieldTypes;
  isUserOnChange : bool
}.

(** A call on the object returned by [useRulesContext]. *)
Inductive ContextCall :=
| updateConditionExpression (args : UpdateArgs)
| addNewRuleConditionExpression
    (rule condition : string) (op : AdjoiningOperatorTypes) (after : option string)
| removeRuleConditionExpression (rule expression : string).

(** An option of the autocomplete; [isDisabled] is present on the sentinel
    only ([undefined], falsy, elsewhere). *)
Record ValueInputAutocompleteOptionsInterface := {
  opt_id : option string;
  opt_label : option string;
  opt_isDisabled : bool
}.

(** One step of a handler, of an effect callback or of a render body. *)
Inductive Action :=
| Call (c : ContextCall)
| CallDebounced (args : UpdateArgs)
| SetIsResourceMissing (b : bool)
| SetResourceDetails (r : option ResourceInterface)
| SetInputValue (v : option string)
| SetInputValueLabel (v : option string)
| SetOptions (os : list ValueInputAutocompleteOptionsInterface)
| SetOpen (b : bool).

(** ** Rendering

    A render body returns its element, or throws; on the way it may already
    have called the debounced dispatcher.  [None] as result is a thrown
    [TypeError]; the actions performed before it are kept. *)
Definition Render (A : Type) : Type := list Action * option A.

Definition ret {A} (a : A) : Render A := ([], Some a).

Definition bind {A B} (m : Render A) (f : A -> Render B) : Render B :=
  match m with
  | (acts, Some a) => let '(acts', r) := f a in (acts ++ acts', r)
  | (acts, None) => (acts, None)
  end.

Definition perform (a : Action) : Render unit := ([a], Some tt).

Definition throw {A} : Render A := ([], None).

Notation "'do' x <- m 'in' k" := (bind m (fun x => k))
  (at level 10, x name, m at level 100, k at level 200).
Notation "'exec' m 'in' k" := (bind m (fun _ => k))
  (at level 10, m at level 100, k at level 200).

(** [xs.map((x, index) => f x index)] where [f] renders a child. *)
Fixpoint mapM_from {A B} (f : A -> nat -> Render B) (i : nat) (xs : list A)
  : Render (list B) :=
  match xs with
  | [] => ret []
  | x :: xs' =>
      do y <- f x i in
      do ys <- mapM_from f (S i) xs' in
      ret (y :: ys)
  end.

Definition mapM_idx {A B} (f : A -> nat -> Render B) (xs : list A) : Render (list B) :=
  mapM_from f 0 xs.

(** ** Views *)

(** [<MenuItem value key>label</MenuItem>]; the key is
    [`${expressionId}-${index}`]. *)
Record MenuItemView := {
  item_value : option string;
  item_key : string * nat;
  item_label : option string
}.

Record SelectView := {
  sel_disabled : option bool;
  sel_value : string;
  sel_componentId : string;
  sel_onChange : string -> list Action;
  sel_items : option (list MenuItemView)
}.

Record TextFieldView := {
  tf_disabled : option bool;
  tf_value : string;
  tf_componentId : string;
  tf_onChange : string -> list Action
}.

Record AutocompleteView := {
  ac_disabled : option bool;
  ac_componentId : string;
  ac_open : bool;
  ac_onOpen : list Action;
  ac_onClose : list Action;
  ac_options : list ValueInputAutocompleteOptionsInterface;
  ac_value : option (option string * option string);
  ac_loading : bool;
  ac_onChange : option ValueInputAutocompleteOptionsInterface -> list Action;
  ac_inputValue : option string;
  ac_onInputChange : string -> list Action
}.

Inductive ValueInputView :=
| VTextField (v : TextFieldView)
| VSelect (v : SelectView)
| VAutocomplete (v : AutocompleteView).

Record ButtonView := {
  btn_disabled : option bool;
  btn_label : string;
  btn_onClick : list Action
}.

Record FabView := {
  fab_ariaLabel : string;
  fab_onClick : list Action
}.

(** The [Box] returned by [RuleExpression]. *)
Record RuleExpressionView := {
  box_key : nat;
  box_componentId : string;
  box_alert : bool;
  box_fieldSelect : SelectView;
  box_operatorSelect : SelectView;
  box_valueInput : option ValueInputView;
  box_andButton : ButtonView;
  box_removeFab : option FabView
}.

(** The [Fragment] rendered for one condition. *)
Record ConditionView := {
  frag_key : nat;
  frag_expressions : option (list RuleExpressionView);
  frag_orButton : option ButtonView
}.

(** The root [div]; a child that evaluated to [false] is [None]. *)
Record RuleConditionsView := {
  root_componentId : string;
  root_children : list (option ConditionView)
}.

(** ** Hook state

    The [useState] cells of the components rendered for one expression row:
    [RuleExpression], [ResourceListSelect] and [ValueInputAutocomplete].
    These components are declared in the body of [RuleConditions]: a render
    of [RuleConditions] makes new component types, the rows are mounted
    anew, and their cells start from [initialState]; the cells change with
    the setters only while [RuleConditions] is not rendered again. *)
Record ExpressionState := {
  isResourceMissing : bool;
  resourceDetails : option ResourceInterface;
  inputValue : option string;
  inputValueLabel : option string;
  options : list ValueInputAutocompleteOptionsInterface;
  open : bool
}.

(** The initial values of the cells. *)
Definition initialState : ExpressionState :=
  {| isResourceMissing := false; resourceDetails := None; inputValue := None;
     inputValueLabel := None; options := []; open := false |}.

(** [useEffect(callback, deps)]: the callback runs after the first render
    ([prev = None]) and after a render in which a dependency changed. *)
Definition useEffect {D} `{EqDecision D} (prev : option D) (deps : D)
    (callback : list Action) : list Action :=
  match prev with
  | Some d => if decide (d = deps) then [] else callback
  | None => callback
  end.

(** The wait passed to [debounce]. *)
Definition debounceWait : Z := 300.

(** The "more items" sentinel appended to the autocomplete's options. *)
Definition moreItems (t : string -> string) : ValueInputAutocompleteOptionsInterface :=
  {| opt_id := Some "more-items";
     opt_isDisabled := true;
     opt_label := Some (t "rules:fields.autocomplete.moreItemsMessage") |}.

(** ** The component [RuleConditions] and the components it closes over *)

Section RuleConditions.

(** Props of [RuleConditions]. *)
Variable componentId : option string.
Variable readonly : option bool.
Variable ruleInstance : RuleInterface.

(** [useRulesContext()]: the metadata collection; the three functions of
    the context are the constructors of [ContextCall]. *)
Variable conditionExpressionsMeta : list ConditionExpressionMetaInterface.

(** [useTranslation()]. *)
Variable t : string -> string.

(** [useGetResourceListOrResourceDetails], at the two types it is used
    at: a resource collection and a single resource. *)
Variable useGetResourceList : string -> RequestResult ResourceListData.
Variable useGetResourceDetails : string -> RequestResult ResourceInterface.

(** The hook state of the row at (condition index, expression index). *)
Variable uiState : nat -> nat -> ExpressionState.

(** The function wrapped by [debounce]. *)
Definition handleExpressionChange (args : UpdateArgs) : ContextCall :=
  updateConditionExpression args.

(** [handleExpressionChangeDebounced]: one debounced function per render of
    [RuleConditions]; every nested component calls this same function. *)
Definition handleExpressionChangeDebounced
    (changedValue : option string) (ruleId conditionId expressionId : string)
    (fieldName : ExpressionFieldTypes) (isUserOnChange : bool) : Action :=
  CallDebounced
    {| changedValue := changedValue; ruleId := ruleId; conditionId := conditionId;
       expressionId := expressionId; fieldName := fieldName;
       isUserOnChange := isUserOnChange |}.

(** A direct call of [updateConditionExpression]. *)
Definition callUpdateConditionExpression
    (changedValue : option string) (ruleId conditionId expressionId : string)
    (fieldName : ExpressionFieldTypes) (isUserOnChange : bool) : Action :=
  Call (updateConditionExpression
    {| changedValue := changedValue; ruleId := ruleId; conditionId := conditionId;
       expressionId := expressionId; fieldName := fieldName;
       isUserOnChange := isUserOnChange |}).

(** [resource => ({ id: resource[ref], label: resource[display] })]. *)
Definition toOption (valueReferenceAttribute valueDisplayAttribute : string)
    (resource : ResourceInterface) : ValueInputAutocompleteOptionsInterface :=
  {| opt_id := resource !! valueReferenceAttribute;
     opt_label := resource !! valueDisplayAttribute;
     opt_isDisabled := false |}.

(** [filterUrl] of [ValueInputAutocomplete]. *)
Definition filterUrl (inputValueLabel : option string)
    (initialResourcesLoadUrl filterBaseResourcesUrl : string) : string :=
  if truthy_str inputValueLabel
  then replace "filter=" ("filter=name+sw+" +:+ interpolate inputValueLabel)
         filterBaseResourcesUrl
  else initialResourcesLoadUrl.

(** [hasMoreItems]: [filteredResources?.totalResults > filteredResources?.count],
    where an absent [data] defaults to the empty array. *)
Definition hasMoreItems (filteredResources : option ResourceListData) : bool :=
  match filteredResources with
  | Some d => js_gt (totalResults d) (count d)
  | None => false
  end.

(** The first effect of [ValueInputAutocomplete], on [resourceDetails]. *)
Definition ValueInputAutocomplete_onResourceDetails
    (valueReferenceAttribute valueDisplayAttribute : string)
    (resourceDetails : option ResourceInterface) : list Action :=
  match resourceDetails with
  | Some r => [SetInputValue (r !! valueReferenceAttribute);
               SetInputValueLabel (r !! valueDisplayAttribute)]
  | None => []
  end.

(** The second effect of [ValueInputAutocomplete]: the options follow the
    filtered collection while there is input, the initial one otherwise. *)
Definition ValueInputAutocomplete_onResources
    (valueReferenceAttribute valueDisplayAttribute : string)
    (resourceType : option string)
    (initialResourcesLoadUrl filterBaseResourcesUrl : string)
    (st : ExpressionState) : list Action :=
  let url := filterUrl (inputValueLabel st) initialResourcesLoadUrl filterBaseResourcesUrl in
  let source :=
    if truthy_str (inputValueLabel st) && truthy_str (Some url)
    then data (useGetResourceList url)
    else data (useGetResourceList initialResourcesLoadUrl) in
  match source ≫= (fun d => collections d !! interpolate resourceType) with
  | Some resources =>
      [SetOptions (toOption valueReferenceAttribute valueDisplayAttribute <$> resources)]
  | None => []
  end.

(** [ValueInputAutocomplete]: the view of the [Autocomplete].  The
    presentational callbacks ([renderInput], [renderOption],
    [getOptionLabel], [isOptionEqualToValue]) dispatch nothing and are
    not part of the view. *)
Definition ValueInputAutocomplete
    (valueReferenceAttribute valueDisplayAttribute : string)
    (resourceDetails : option ResourceInterface) (resourceType : option string)
    (initialResourcesLoadUrl filterBaseResourcesUrl : string)
    (ruleId conditionId expressionId : string)
    (st : ExpressionState) : Render AutocompleteView :=
  let url := filterUrl (inputValueLabel st) initialResourcesLoadUrl filterBaseResourcesUrl in
  let initial := useGetResourceList initialResourcesLoadUrl in
  let filtered := useGetResourceList url in
  ret {| ac_disabled := readonly;
         ac_componentId := "rules-condition-expression-input-value";
         ac_open := open st;
         ac_onOpen := [SetOpen true];
         ac_onClose := [SetOpen false];
         ac_options :=
           if hasMoreItems (data filtered)
           then options st ++ [moreItems t]
           else options st;
         ac_value :=
           match resourceDetails with
           | Some _ => Some (inputValue st, inputValueLabel st)
           | None => None
           end;
         ac_loading := isLoading initial || isLoading filtered;
         ac_onChange := fun value =>
           match value with
           | Some v =>
               if opt_isDisabled v
               then []
               else [handleExpressionChangeDebounced (opt_id v) ruleId conditionId
                       expressionId Value true]
           | None => []
           end;
         ac_inputValue := inputValueLabel st;
         ac_onInputChange := fun value => [SetInputValueLabel (Some value)] |}.

(** The URL of the single-resource lookup of [ResourceListSelect]. *)
Definition resourceDetailsUrl (resourceType : option string) (expressionValue : string)
  : string :=
  "/" +:+ interpolate resourceType +:+ "/" +:+ expressionValue.

(** [resourceType] of [ResourceListSelect]: set for the application field
    only, [undefined] otherwise. *)
Definition resourceTypeOf (expressionField : string) : option string :=
  if bool_decide (expressionField = "application") then Some "applications" else None.

(** The body of the effect of [ResourceListSelect] on the state of the
    single-resource lookup. *)
Definition ResourceListSelect_onResourceDetails
    (details : RequestResult ResourceInterface) : list Action :=
  if negb (isLoading details)
  then if bool_decide (is_Some (error details))
       then [SetIsResourceMissing true; SetResourceDetails None]
       else [SetResourceDetails (data details)]
  else [].

(** The effect itself, with its dependencies
    [[isResourceDetailsLoading, resourceDetailsError]]. *)
Definition ResourceListSelect_effect
    (prev : option (bool * option string))
    (details : RequestResult ResourceInterface) : list Action :=
  useEffect prev (isLoading details, error details)
    (ResourceListSelect_onResourceDetails details).

(** The effect for the lookup [ResourceListSelect] makes for its props. *)
Definition ResourceListSelect_effectOf
    (prev : option (bool * option string))
    (expressionField expressionValue : string) : list Action :=
  ResourceListSelect_effect prev
    (useGetResourceDetails
       (resourceDetailsUrl (resourceTypeOf expressionField) expressionValue)).

(** [ResourceListSelect].  [fetchedResourcesList[resourceType][0]?.id]
    throws when the collection has no array under [resourceType]. *)
Definition ResourceListSelect
    (ruleId conditionId expressionValue expressionId expressionField : string)
    (findMetaValuesAgainst : option ConditionExpressionMetaInterface)
    (initialResourcesLoadUrl filterBaseResourcesUrl : string)
    (st : ExpressionState) : Render (option ValueInputView) :=
  let valueReferenceAttribute :=
    or_default ((findMetaValuesAgainst ≫= meta_value) ≫= valueReferenceAttribute) "id" in
  let valueDisplayAttribute :=
    or_default ((findMetaValuesAgainst ≫= meta_value) ≫= valueDisplayAttribute) "name" in
  let resourceType := resourceTypeOf expressionField in
  match data (useGetResourceList initialResourcesLoadUrl) with
  | Some fetchedResourcesList =>
      exec (if bool_decide (expressionValue = EmptyString)
            then match collections fetchedResourcesList !! interpolate resourceType with
                 | Some resources =>
                     perform (handleExpressionChangeDebounced
                                (head resources ≫= (fun r : ResourceInterface => r !! "id"))
                                ruleId conditionId expressionId Value false)
                 | None => throw
                 end
            else ret tt) in
      if js_gt (totalResults fetchedResourcesList) (count fetchedResourcesList)
      then
        do ac <- ValueInputAutocomplete valueReferenceAttribute valueDisplayAttribute
                   (resourceDetails st) resourceType
                   initialResourcesLoadUrl filterBaseResourcesUrl
                   ruleId conditionId expressionId st in
        ret (Some (VAutocomplete ac))
      else
        ret (Some (VSelect
          {| sel_disabled := readonly;
             sel_value := expressionValue;
             sel_componentId := "rules-condition-expression-input-value";
             sel_onChange := fun v =>
               [callUpdateConditionExpression (Some v) ruleId conditionId
                  expressionId Value true];
             sel_items :=
               imap (fun index (resource : ResourceInterface) =>
                       {| item_value := resource !! valueReferenceAttribute;
                          item_key := (expressionId, index);
                          item_label := resource !! valueDisplayAttribute |})
               <$> collections fetchedResourcesList !! interpolate resourceType |}))
  | None => ret None
  end.


(** [metaValue?.links.find(link => link.rel === rel)?.href]. *)
Definition linkHref (rel : string) (links : list LinkInterface) : option string :=
  link_href <$> List.find (fun link => bool_decide (link_rel link = rel)) links.

(** [ConditionValueInput]: the value input chosen from the field's
    value-shape; [None] is the [null] it returns. *)
Definition ConditionValueInput
    (findMetaValuesAgainst : option ConditionExpressionMetaInterface)
    (ruleId conditionId expressionField expressionId expressionValue : string)
    (metaValue : option ExpressionValueInterface)
    (st : ExpressionState) : Render (option ValueInputView) :=
  if bool_decide (inputType <$> metaValue = Some "input")
  then
    ret (Some (VTextField
      {| tf_disabled := readonly;
         tf_value := expressionValue;
         tf_componentId := "rules-condition-expression-input-value";
         tf_onChange := fun v =>
           [handleExpressionChangeDebounced (Some v) ruleId conditionId
              expressionId Value true] |}))
  else if bool_decide (inputType <$> metaValue = Some "options")
  then
    if length_gt_1 (metaValue ≫= values)
    then
      exec (if bool_decide (expressionValue = EmptyString)
            then perform (handleExpressionChangeDebounced
                            (ld_name <$> ((metaValue ≫= values) ≫= head))
                            ruleId conditionId expressionId Value false)
            else ret tt) in
      ret (Some (VSelect
        {| sel_disabled := readonly;
           sel_value := expressionValue;
           sel_componentId := "rules-condition-expression-input-value";
           sel_onChange := fun v =>
             [callUpdateConditionExpression (Some v) ruleId conditionId
                expressionId Value true];
           sel_items :=
             imap (fun index (item : ListDataInterface) =>
                     {| item_value := Some (ld_name item);
                        item_key := (expressionId, index);
                        item_label := Some (ld_displayName item) |})
             <$> (metaValue ≫= values) |}))
    else if length_gt_1 (metaValue ≫= links)
    then
      let initialResourcesLoadUrl := (metaValue ≫= links) ≫= linkHref "values" in
      let filterBaseResourcesUrl := (metaValue ≫= links) ≫= linkHref "filter" in
      match initialResourcesLoadUrl, filterBaseResourcesUrl with
      | Some initialUrl, Some filterBaseUrl =>
          if truthy_str (Some initialUrl) && truthy_str (Some filterBaseUrl)
          then ResourceListSelect ruleId conditionId expressionValue expressionId
                 expressionField findMetaValuesAgainst initialUrl filterBaseUrl st
          else ret None
      | _, _ => ret None
      end
    else ret None
  else ret None.

(** [RuleExpression]: one row of field, operator and value controls with
    its "and" button and its remove button. *)
Definition RuleExpression
    (expression : ConditionExpressionInterface) (ruleId conditionId : string)
    (index : nat) (isConditionExpressionRemovable : bool)
    (st : ExpressionState) : Render RuleExpressionView :=
  let findMetaValuesAgainst :=
    List.find (fun expressionMeta =>
                 bool_decide (ld_name <$> meta_field expressionMeta
                              = Some (expr_field expression)))
              conditionExpressionsMeta in
  do valueInput <-
    ConditionValueInput findMetaValuesAgainst ruleId conditionId
      (expr_field expression) (expr_id expression) (expr_value expression)
      (findMetaValuesAgainst ≫= meta_value) st in
  ret {| box_key := index;
         box_componentId := "rules-condition-expression";
         box_alert := isResourceMissing st;
         box_fieldSelect :=
           {| sel_disabled := readonly;
              sel_value := expr_field expression;
              sel_componentId := "rules-condition-expression-input-field-select";
              sel_onChange := fun v =>
                [callUpdateConditionExpression (Some v) ruleId conditionId
                   (expr_id expression) Field true;
                 callUpdateConditionExpression (Some EmptyString) ruleId conditionId
                   (expr_id expression) Value true];
              sel_items :=
                Some (imap (fun index item =>
                              {| item_value := ld_name <$> meta_field item;
                                 item_key := (expr_id expression, index);
                                 item_label := ld_displayName <$> meta_field item |})
                           conditionExpressionsMeta) |};
         box_operatorSelect :=
           {| sel_disabled := readonly;
              sel_value := expr_operator expression;
              sel_componentId := "rules-condition-expression-input-operator-select";
              sel_onChange := fun v =>
                [callUpdateConditionExpression (Some v) ruleId conditionId
                   (expr_id expression) Operator true];
              sel_items :=
                imap (fun index (item : ListDataInterface) =>
                        {| item_value := Some (ld_name item);
                           item_key := (expr_id expression, index);
                           item_label := Some (ld_displayName item) |})
                <$> (findMetaValuesAgainst ≫= meta_operators) |};
         box_valueInput := valueInput;
         box_andButton :=
           {| btn_disabled := readonly;
              btn_label := t "rules:buttons.and";
              btn_onClick :=
                [Call (addNewRuleConditionExpression ruleId conditionId And
                         (Some (expr_id expression)))] |};
         box_removeFab :=
           if isConditionExpressionRemovable && negb (truthy_bool readonly)
           then Some {| fab_ariaLabel := "delete";
                        fab_onClick :=
                          [Call (removeRuleConditionExpression ruleId
                                   (expr_id expression))] |}
           else None |}.

(** The fragment rendered for the condition at [index]. *)
Definition renderCondition (condition : RuleConditionInterface) (index : nat)
  : Render (option ConditionView) :=
  if bool_decide (rule_condition ruleInstance = Or)
  then
    do expressions <-
      (if bool_decide (cond_condition condition = And)
       then
         do rows <-
           mapM_idx (fun expression exprIndex =>
                       RuleExpression expression (rule_id ruleInstance)
                         (cond_id condition) exprIndex
                         (bool_decide (1 < length (cond_expressions condition))%nat
                          || bool_decide (1 < length (rule_rules ruleInstance))%nat)
                         (uiState index exprIndex))
                    (cond_expressions condition) in
         ret (Some rows)
       else ret None) in
    ret (Some
      {| frag_key := index;
         frag_expressions := expressions;
         frag_orButton :=
           if bool_decide (0 < length (cond_expressions condition))%nat
           then Some {| btn_disabled := readonly;
                        btn_label := t "rules:buttons.or";
                        btn_onClick :=
                          [Call (addNewRuleConditionExpression
                                   (rule_id ruleInstance) (cond_id condition)
                                   Or None)] |}
           else None |})
  else ret None.

(** [RuleConditions]: the root [div] over the rule's conditions. *)
Definition RuleConditions : Render RuleConditionsView :=
  do children <- mapM_idx renderCondition (rule_rules ruleInstance) in
  ret {| root_componentId := default "rules-component-condition" componentId;
         root_children := children |}.

End RuleConditions.

(** [row] is the view of the expression at index [j] of the condition at
    index [i] in [view]. *)
Definition rowAt (view : RuleConditionsView) (i j : nat) (row : RuleExpressionView)
  : Prop :=
  exists fragment rows,
    root_children view !! i = Some (Some fragment) /\
    frag_expressions fragment = Some rows /\
    rows !! j = Some row.

(** ** Time: the debounced dispatcher

    [debounce(func, 300)] of lodash with its default options invokes [func]
    on the trailing edge only: once [wait] time units have passed since the
    last call of the debounced function, with the arguments of that last
    call.  A render of [RuleConditions] owns one such function, so its state
    is one optional pending call: the time of the last call and its
    arguments.  Timers fire on time: a timer due at or before an event has
    fired when the event is handled. *)

Definition Pending : Type := option (Z * UpdateArgs).

(** What reached the rules context, and when. *)
Definition Log : Type := list (Z * ContextCall).

(** The timer of the debounced function, looked at at time [now]. *)
Definition expire (now : Z) (p : Pending) : Pending * Log :=
  match p with
  | Some (lastCallTime, lastArgs) =>
      if (lastCallTime + debounceWait <=? now)%Z
      then (None, [((lastCallTime + debounceWait)%Z, handleExpressionChange lastArgs)])
      else (p, [])
  | None => (None, [])
  end.

(** One action at time [now]; the [useState] setters do not reach the
    context. *)
Definition act (now : Z) (a : Action) (p : Pending) : Pending * Log :=
  match a with
  | Call c => (p, [(now, c)])
  | CallDebounced args => (Some (now, args), [])
  | _ => (p, [])
  end.

Fixpoint acts (now : Z) (actions : list Action) (p : Pending) : Pending * Log :=
  match actions with
  | [] => (p, [])
  | a :: rest =>
      let '(p1, l1) := act now a p in
      let '(p2, l2) := acts now rest p1 in
      (p2, l1 ++ l2)
  end.

(** A sequence of events, each the actions of one handler, effect or render
    body run at a time; times do not decrease along the sequence. *)
Fixpoint run (events : list (Z * list Action)) (p : Pending) : Pending * Log :=
  match events with
  | [] => (p, [])
  | (now, actions) :: rest =>
      let '(p1, l1) := expire now p in
      let '(p2, l2) := acts now actions p1 in
      let '(p3, l3) := run rest p2 in
      (p3, l1 ++ l2 ++ l3)
  end.

(** The calls that have reached the context by time [now], starting with no
    pending call. *)
Definition dispatched (events : list (Z * list Action)) (now : Z) : Log :=
  let '(p, l) := run events None in
  l ++ (expire now p).2.

(** Whether a call is an [updateConditionExpression] on the given
    expression. *)
Definition updates (expression : string) (c : ContextCall) : bool :=
  match c with
  | updateConditionExpression args => bool_decide (expressionId args = expression)
  | _ => false
  end.

(** The calls of a log that update the given expression. *)
Definition updatesOf (expression : string) (l : Log) : Log :=
  List.filter (fun entry => updates expression entry.2) l.

(** ** application-templates-config.ts *)

(** The value of an optional property of an object: the property is absent
    or [undefined], it is [null], or it holds a value.  [merge] tells the
    first two apart. *)
Inductive Property (A : Type) :=
| Undefined
| Null
| Defined (a : A).
Arguments Undefined {A}.
Arguments Null {A}.
Arguments Defined {A} _.

(** [TemplateConfigInterface<T>]; [W] is the type of [wizardHelp]. *)
Record TemplateConfigInterface (T W : Type) := {
  enabled : bool;
  id : string;
  resource : Property T;
  wizardHelp : Property W
}.
Arguments enabled {T W} _.
Arguments id {T W} _.
Arguments resource {T W} _.
Arguments wizardHelp {T W} _.

Section Lodash.

Context {T W : Type}.

(** What lodash leaves for a property that holds a value in both objects:
    the deep merge of the two values ([baseMergeDeep]) when the source's is
    a plain object or an array, the source's value otherwise.  The values
    themselves, JSON resources and lazy components, are opaque here. *)
Variable mergeResource : T -> T -> T.
Variable mergeWizardHelp : W -> W -> W.

(** [merge] on one property: a source value that is [undefined] leaves the
    destination's value in place; [null] is assigned like any value that is
    not an object; a value is merged into the destination's value, or
    copied where the destination has none. *)
Definition mergeProperty {A} (deep : A -> A -> A) (object source : Property A)
  : Property A :=
  match source with
  | Undefined => object
  | Null => Null
  | Defined s =>
      match object with
      | Defined o => Defined (deep o s)
      | _ => Defined s
      end
  end.

(** [merge] on two entries stored under the same key: the properties of
    the source are assigned over those of the destination. *)
Definition mergeEntry (object source : TemplateConfigInterface T W)
  : TemplateConfigInterface T W :=
  {| enabled := enabled source;
     id := id source;
     resource := mergeProperty mergeResource (resource object) (resource source);
     wizardHelp := mergeProperty mergeWizardHelp (wizardHelp object) (wizardHelp source) |}.

(** [keyBy(collection, "id")]: an object from id to entry; of several
    entries with one id the last is kept. *)
Definition keyBy (collection : list (TemplateConfigInterface T W))
  : gmap string (TemplateConfigInterface T W) :=
  foldl (fun result entry => <[id entry := entry]> result) ∅ collection.

(** [merge(object, source)] on two such objects.  [merge] reads the values
    of the source through [safeGet], which gives [undefined] for the key
    [__proto__]: what the source holds under that key is skipped, and what
    the destination holds under it stays as it is. *)
Definition merge (object source : gmap string (TemplateConfigInterface T W))
  : gmap string (TemplateConfigInterface T W) :=
  union_with (fun o s => Some (mergeEntry o s)) object (delete "__proto__" source).

(** [values(object)]: the entries of the object.  Their order is that of the
    object's keys; the finite map gives the entries in an order of its own,
    and nothing below depends on it. *)
Definition values_ (object : gmap string (TemplateConfigInterface T W))
  : list (TemplateConfigInterface T W) :=
  (map_to_list object).*2.

(** [values(merge(keyBy(builtIn, "id"), keyBy(extension, "id")))]. *)
Definition mergeById (builtIn extension : list (TemplateConfigInterface T W))
  : list (TemplateConfigInterface T W) :=
  values_ (merge (keyBy builtIn) (keyBy extension)).

(** The entry a list holds for an id once keyed: the last one with it. *)
Definition entryFor (key : string) (collection : list (TemplateConfigInterface T W))
  : option (TemplateConfigInterface T W) :=
  last (List.filter (fun entry => bool_decide (id entry = key)) collection).

End Lodash.

(** [result] is the merge by id of two lists of entries: it holds at most
    one entry per id, and exactly the entries obtained, id by id, from the
    entry the built-in list holds for the id and the entry the extension
    list holds for it, the extension's entry of id [__proto__] left aside.
    Where both exist, the entry has the extension's [enabled] and [id], and
    each of [resource] and [wizardHelp] is the built-in's where the
    extension leaves it undefined, [null] where the extension sets [null],
    and otherwise the extension's value, merged over the built-in's if the
    built-in holds one.  Where one exists, the entry is that one. *)
Definition MergedById {T W} (mergeResource : T -> T -> T) (mergeWizardHelp : W -> W -> W)
    (builtIn extension result : list (TemplateConfigInterface T W)) : Prop :=
  NoDup (id <$> result) /\
  forall entry,
    entry ∈ result <->
    match entryFor (id entry) builtIn,
          (if bool_decide (id entry = "__proto__")
           then None
           else entryFor (id entry) extension) with
    | Some b, Some x =>
        enabled entry = enabled x /\
        id entry = id x /\
        resource entry =
          match resource x with
          | Undefined => resource b
          | Null => Null
          | Defined s =>
              match resource b with
              | Defined o => Defined (mergeResource o s)
              | _ => Defined s
              end
          end /\
        wizardHelp entry =
          match wizardHelp x with
          | Undefined => wizardHelp b
          | Null => Null
          | Defined s =>
              match wizardHelp b with
              | Defined o => Defined (mergeWizardHelp o s)
              | _ => Defined s
              end
          end
    | Some b, None => entry = b
    | None, Some x => entry = x
    | None, None => False
    end.

Record ApplicationTemplatesConfigInterface (G A W : Type) := {
  groups : list (TemplateConfigInterface G W);
  templates : list (TemplateConfigInterface A W)
}.
Arguments groups {G A W} _.
Arguments templates {G A W} _.

Section ApplicationTemplatesConfig.

(** [ApplicationTemplateGroupInterface], [ApplicationTemplateInterface]
    and the type of a lazily loaded wizard help. *)
Context {G A W : Type}.
Variable groupId : G -> string.
Variable templateId : A -> string.
Variable mergeGroup : G -> G -> G.
Variable mergeTemplate : A -> A -> A.
Variable mergeWizardHelp : W -> W -> W.

(** The imported JSON resources. *)
Variables WebApplicationTemplateGroup DesktopApplicationTemplateGroup
          MobileApplicationTemplateGroup : G.
Variables AndroidMobileApplicationTemplate OIDCWebApplicationTemplate
          SAMLWebApplicationTemplate SinglePageApplicationTemplate
          WindowsDesktopApplicationTemplate CustomApplicationTemplate : A.

(** [lazy(() => import(".../create-wizard-help"))], one per template. *)
Variables androidHelp oidcHelp samlHelp spaHelp windowsHelp customHelp : W.

(** [ExtensionsManager.getInstance().getApplicationTemplatesConfig()]. *)
Variable extensionsConfig : ApplicationTemplatesConfigInterface G A W.

Definition builtInGroup (group : G) : TemplateConfigInterface G W :=
  {| enabled := true; id := groupId group; resource := Defined group;
     wizardHelp := Undefined |}.

Definition builtInTemplate (template : A) (help : W) : TemplateConfigInterface A W :=
  {| enabled := true; id := templateId template; resource := Defined template;
     wizardHelp := Defined help |}.

Definition builtInGroups : list (TemplateConfigInterface G W) :=
  [ builtInGroup WebApplicationTemplateGroup;
    builtInGroup DesktopApplicationTemplateGroup;
    builtInGroup MobileApplicationTemplateGroup ].

Definition builtInTemplates : list (TemplateConfigInterface A W) :=
  [ builtInTemplate AndroidMobileApplicationTemplate androidHelp;
    builtInTemplate OIDCWebApplicationTemplate oidcHelp;
    builtInTemplate SAMLWebApplicationTemplate samlHelp;
    builtInTemplate SinglePageApplicationTemplate spaHelp;
    builtInTemplate WindowsDesktopApplicationTemplate windowsHelp;
    builtInTemplate CustomApplicationTemplate customHelp ].

Definition getApplicationTemplatesConfig : ApplicationTemplatesConfigInterface G A W :=
  {| groups :=
       mergeById mergeGroup mergeWizardHelp builtInGroups (groups extensionsConfig);
     templates :=
       mergeById mergeTemplate mergeWizardHelp builtInTemplates
         (templates extensionsConfig) |}.

End ApplicationTemplatesConfig.

(** ** Sample inputs *)

Module Sample.

Definition t (key : string) : string := key.

Definition application : ConditionExpressionMetaInterface :=
  {| meta_field := Some {| ld_name := "application"; ld_displayName := "Application" |};
     meta_operators := Some [ {| ld_name := "equals"; ld_displayName := "equals" |};
                              {| ld_name := "notEquals"; ld_displayName := "not equals" |} ];
     meta_value := Some
       {| inputType := "options";
          valueReferenceAttribute := Some "id";
          valueDisplayAttribute := Some "name";
          values := None;
          links := Some [ {| link_href := "/applications?limit=2"; link_rel := "values" |};
                          {| link_href := "/applications?filter=&limit=2";
                             link_rel := "filter" |} ] |} |}.

(** A second field with resource links, of a type [ResourceListSelect]
    assigns no [resourceType] to. *)
Definition role : ConditionExpressionMetaInterface :=
  {| meta_field := Some {| ld_name := "role"; ld_displayName := "Role" |};
     meta_operators := Some [ {| ld_name := "equals"; ld_displayName := "equals" |} ];
     meta_value := Some
       {| inputType := "options";
          valueReferenceAttribute := Some "id";
          valueDisplayAttribute := Some "name";
          values := None;
          links := Some [ {| link_href := "/roles?limit=2"; link_rel := "values" |};
                          {| link_href := "/roles?filter=&limit=2";
                             link_rel := "filter" |} ] |} |}.

Definition grantTypeValue : ExpressionValueInterface :=
  {| inputType := "options";
     valueReferenceAttribute := None;
     valueDisplayAttribute := None;
     values := Some [ {| ld_name := "authorization_code";
                         ld_displayName := "Authorization code" |};
                      {| ld_name := "password"; ld_displayName := "Password" |} ];
     links := None |}.

Definition grantType : ConditionExpressionMetaInterface :=
  {| meta_field := Some {| ld_name := "grantType"; ld_displayName := "Grant type" |};
     meta_operators := Some [ {| ld_name := "equals"; ld_displayName := "equals" |} ];
     meta_value := Some grantTypeValue |}.

Definition noteValue : ExpressionValueInterface :=
  {| inputType := "input";
     valueReferenceAttribute := None;
     valueDisplayAttribute := None;
     values := None;
     links := None |}.

Definition note : ConditionExpressionMetaInterface :=
  {| meta_field := Some {| ld_name := "note"; ld_displayName := "Note" |};
     meta_operators := Some [ {| ld_name := "contains"; ld_displayName := "contains" |} ];
     meta_value := Some noteValue |}.

Definition meta : list ConditionExpressionMetaInterface :=
  [ application; grantType; note; role ].

Definition resourceOf (id name : string) : ResourceInterface :=
  <["id" := id]> (<["name" := name]> ∅).

(** Three applications exist, two are fetched at a time. *)
Definition pagedApplications : ResourceListData :=
  {| totalResults := Some 3%Z; count := Some 2%Z;
     collections := {[ "applications" := [ resourceOf "a1" "App one";
                                           resourceOf "a2" "App two" ] ]} |}.

Definition pagedRoles : ResourceListData :=
  {| totalResults := Some 3%Z; count := Some 2%Z;
     collections := {[ "roles" := [ resourceOf "r1" "Role one";
                                    resourceOf "r2" "Role two" ] ]} |}.

Definition loaded {T} (d : T) : RequestResult T :=
  {| data := Some d; isLoading := false; error := None |}.

Definition loading {T} : RequestResult T :=
  {| data := None; isLoading := true; error := None |}.

Definition failed {T} (e : string) : RequestResult T :=
  {| data := None; isLoading := false; error := Some e |}.

Definition useGetResourceList (url : string) : RequestResult ResourceListData :=
  if bool_decide (url = "/applications?limit=2") then loaded pagedApplications
  else if bool_decide (url = "/roles?limit=2") then loaded pagedRoles
  else loading.

(** The application ["a9"] no longer exists. *)
Definition useGetResourceDetails (url : string) : RequestResult ResourceInterface :=
  if bool_decide (url = "/applications/a9") then failed "404" else loading.


Definition uiState (i j : nat) : ExpressionState := initialState.

Definition expression (id field value : string) : ConditionExpressionInterface :=
  {| expr_id := id; expr_field := field; expr_operator := "equals"; expr_value := value |}.

(** Entries whose resource is a string; merging two resources keeps both. *)
Definition entry (enabled : bool) (id : string) (resource : Property string)
  : TemplateConfigInterface string string :=
  {| enabled := enabled; id := id; resource := resource; wizardHelp := Undefined |}.

Definition both (object source : string) : string := object +:+ "+" +:+ source.

(** One condition with one expression. *)
Definition single : RuleInterface :=
  {| rule_id := "r"; rule_condition := Or;
     rule_rules := [ {| cond_id := "c1"; cond_condition := And;
                        cond_expressions := [ expression "e1" "grantType" "password" ] |} ] |}.

(** Two conditions with one expression each. *)
Definition twoConditions : RuleInterface :=
  {| rule_id := "r"; rule_condition := Or;
     rule_rules := [ {| cond_id := "c1"; cond_condition := And;
                        cond_expressions := [ expression "e1" "grantType" "password" ] |};
                     {| cond_id := "c2"; cond_condition := And;
                        cond_expressions := [ expression "e2" "note" "x" ] |} ] |}.

(** One condition with two expressions on the fixed-list field, both
    without a value yet. *)
Definition twoGrantTypes : RuleInterface :=
  {| rule_id := "r"; rule_condition := Or;
     rule_rules := [ {| cond_id := "c1"; cond_condition := And;
                        cond_expressions := [ expression "e1" "grantType" EmptyString;
                                              expression "e2" "grantType" EmptyString ] |} ] |}.

(** One condition with two free-text expressions. *)
Definition twoNotes : RuleInterface :=
  {| rule_id := "r"; rule_condition := Or;
     rule_rules := [ {| cond_id := "c1"; cond_condition := And;
                        cond_expressions := [ expression "e1" "note" EmptyString;
                                              expression "e2" "note" EmptyString ] |} ] |}.

(** One condition with one expression on a resource field other than the
    application, without a value yet. *)
Definition roleWithoutValue : RuleInterface :=
  {| rule_id := "r"; rule_condition := Or;
     rule_rules := [ {| cond_id := "c1"; cond_condition := And;
                        cond_expressions := [ expression "e1" "role" EmptyString ] |} ] |}.

(** The same rule rooted at AND. *)
Definition andRooted : RuleInterface :=
  {| rule_id := "r"; rule_condition := And; rule_rules := rule_rules twoConditions |}.

Definition render (readonly : option bool) (rule : RuleInterface)
  : Render RuleConditionsView :=
  RuleConditions None readonly rule meta t useGetResourceList uiState.

End Sample.

(** The presence of the remove button on each row of each rendered
    condition of a view. *)
Definition removeButtons (view : RuleConditionsView) : list (list bool) :=
  (fun child : option ConditionView =>
     match child ≫= frag_expressions with
     | Some rows => (fun row => bool_decide (is_Some (box_removeFab row))) <$> rows
     | None => []
     end) <$> root_children view.

(** The text field of a value input, if it is one. *)
Definition textFieldOf (v : option ValueInputView) : option TextFieldView :=
  match v with
  | Some (VTextField tf) => Some tf
  | _ => None
  end.

(** The actions performed when the user types [v] into the free-text field
    of the row at ([i], [j]) of a rendered rule; none if there is no such
    field. *)
Definition typeInto (rendered : Render RuleConditionsView) (i j : nat) (v : string)
  : list Action :=
  match rendered.2 with
  | Some view =>
      match (mjoin (root_children view !! i) ≫= frag_expressions)
            ≫= (fun rows : list RuleExpressionView => rows !! j) with
      | Some row =>
          match textFieldOf (box_valueInput row) with
          | Some field => tf_onChange field v
          | None => []
          end
      | None => []
      end
  | None => []
  end.

(** ** Sequences of calls of the debounced function *)

(** The events of a sequence of calls of the debounced function, each given
    by its time and its arguments. *)
Definition debouncedCalls (calls : list (Z * UpdateArgs)) : list (Z * list Action) :=
  (fun call : Z * UpdateArgs => (call.1, [CallDebounced call.2])) <$> calls.

(** A burst after time [previous]: every call comes less than the wait after
    the call before it. *)
Fixpoint burst (previous : Z) (calls : list (Z * UpdateArgs)) : Prop :=
  match calls with
  | [] => True
  | call :: rest =>
      (previous <= call.1)%Z /\ (call.1 < previous + debounceWait)%Z /\ burst call.1 rest
  end.

(** Calls spaced out after time [previous]: every call comes at least the
    wait after the call before it. *)
Fixpoint spaced (previous : Z) (calls : list (Z * UpdateArgs)) : Prop :=
  match calls with
  | [] => True
  | call :: rest => (previous + debounceWait <= call.1)%Z /\ spaced call.1 rest
  end.

(** The log entry of a call that went through: the wrapped function, the
    wait after the call. *)
Definition delayed (call : Z * UpdateArgs) : Z * ContextCall :=
  ((call.1 + debounceWait)%Z, handleExpressionChange call.2).

(** ** State updates

    The setters of the [useState] cells: each replaces the value of its
    cell; a call on the rules context leaves the cells alone. *)
Definition setState (a : Action) (st : ExpressionState) : ExpressionState :=
  match a with
  | SetIsResourceMissing b =>
      {| isResourceMissing := b; resourceDetails := resourceDetails st;
         inputValue := inputValue st; inputValueLabel := inputValueLabel st;
         options := options st; open := open st |}
  | SetResourceDetails r =>
      {| isResourceMissing := isResourceMissing st; resourceDetails := r;
         inputValue := inputValue st; inputValueLabel := inputValueLabel st;
         options := options st; open := open st |}
  | SetInputValue v =>
      {| isResourceMissing := isResourceMissing st; resourceDetails := resourceDetails st;
         inputValue := v; inputValueLabel := inputValueLabel st;
         options := options st; open := open st |}
  | SetInputValueLabel v =>
      {| isResourceMissing := isResourceMissing st; resourceDetails := resourceDetails st;
         inputValue := inputValue st; inputValueLabel := v;
         options := options st; open := open st |}
  | SetOptions os =>
      {| isResourceMissing := isResourceMissing st; resourceDetails := resourceDetails st;
         inputValue := inputValue st; inputValueLabel := inputValueLabel st;
         options := os; open := open st |}
  | SetOpen b =>
      {| isResourceMissing := isResourceMissing st; resourceDetails := resourceDetails st;
         inputValue := inputValue st; inputValueLabel := inputValueLabel st;
         options := options st; open := b |}
  | Call _ | CallDebounced _ => st
  end.

Definition setStates (actions : list Action) (st : ExpressionState) : ExpressionState :=
  foldl (fun st a => setState a st) st actions.

(** ** What the handlers of a row do *)

(** An action concerns the given expression of the given condition of the
    given rule: a call on the rules context, direct or debounced, names
    them; a state update stays within the row. *)
Definition addresses (rule condition expression : string) (a : Action) : Prop :=
  match a with
  | Call (updateConditionExpression args) | CallDebounced args =>
      ruleId args = rule /\ conditionId args = condition /\ expressionId args = expression
  | Call (addNewRuleConditionExpression r c _ after) =>
      r = rule /\ c = condition /\ after = Some expression
  | Call (removeRuleConditionExpression r e) => r = rule /\ e = expression
  | _ => True
  end.

(** The actions of the event handlers of a value input, each at any value
    of its event. *)
Inductive valueInputHandler : ValueInputView -> list Action -> Prop :=
| textChanged field v : valueInputHandler (VTextField field) (tf_onChange field v)
| optionSelected select v : valueInputHandler (VSelect select) (sel_onChange select v)
| autocompleteChanged autocomplete value :
    valueInputHandler (VAutocomplete autocomplete) (ac_onChange autocomplete value)
| autocompleteInputChanged autocomplete v :
    valueInputHandler (VAutocomplete autocomplete) (ac_onInputChange autocomplete v)
| autocompleteOpened autocomplete :
    valueInputHandler (VAutocomplete autocomplete) (ac_onOpen autocomplete)
| autocompleteClosed autocomplete :
    valueInputHandler (VAutocomplete autocomplete) (ac_onClose autocomplete).

(** The actions of the event handlers of a row. *)
Inductive rowHandler (row : RuleExpressionView) : list Action -> Prop :=
| fieldSelected v : rowHandler row (sel_onChange (box_fieldSelect row) v)
| operatorSelected v : rowHandler row (sel_onChange (box_operatorSelect row) v)
| valueEdited input actions :
    box_valueInput row = Some input -> valueInputHandler input actions ->
    rowHandler row actions
| andClicked : rowHandler row (btn_onClick (box_andButton row))
| removeClicked fab :
    box_removeFab row = Some fab -> rowHandler row (fab_onClick fab).

(** The [disabled] prop of a value input. *)
Definition valueInputDisabled (input : ValueInputView) : option bool :=
  match input with
  | VTextField field => tf_disabled field
  | VSelect select => sel_disabled select
  | VAutocomplete autocomplete => ac_disabled autocomplete
  end.

(** Two renders make the same calls and throw alike. *)
Definition sameCalls {B C} (m : Render B) (n : Render C) : Prop :=
  m.1 = n.1 /\ (is_Some m.2 <-> is_Some n.2).

(** Whether a string occurs in another. *)
Fixpoint occurs (pat s : string) : bool :=
  String.prefix pat s ||
  match s with
  | EmptyString => false
  | String _ s' => occurs pat s'
  end.

(** An action other than a call of [setIsResourceMissing]. *)
Definition keepsWarning (a : Action) : Prop :=
  match a with
  | SetIsResourceMissing _ => False
  | _ => True
  end.

(** ** dynamic-connector-form: the form of a governance connector *)

(** The attributes of [ConnectorPropertyInterface] the form reads. *)
Record ConnectorPropertyInterface := {
  prop_name : string;
  prop_value : string;
  prop_displayName : string;
  prop_description : string
}.

Inductive FieldComponent := RenderToggle | RenderInput.

#[global] Instance FieldComponent_eq_dec : EqDecision FieldComponent.
Proof. solve_decision. Defined.

(** [getFieldComponent]. *)
Definition getFieldComponent (property : ConnectorPropertyInterface) : FieldComponent :=
  if bool_decide (prop_value property = "true") || bool_decide (prop_value property = "false")
  then RenderToggle
  else RenderInput.

(** [isToggle]. *)
Definition isToggle (property : ConnectorPropertyInterface) : bool :=
  bool_decide (prop_value property = "true") || bool_decide (prop_value property = "false").

(** [getFieldType]. *)
Definition getFieldType (property : ConnectorPropertyInterface) : string :=
  if String.prefix "__secret__" (prop_name property) then "password" else "text".

(** A value of the form in the store. *)
Inductive FormValue :=
| BooleanValue (b : bool)
| TextValue (s : string).

(** [formValues[name] ? .. : ..]; an absent key is [undefined]. *)
Definition truthy_value (v : option FormValue) : bool :=
  match v with
  | Some (BooleanValue b) => b
  | Some (TextValue s) => negb (bool_decide (s = EmptyString))
  | None => false
  end.

(** [state.form[name]]: the state of one form, with its [values]. *)
Record FormState := {
  form_values : option (gmap string FormValue)
}.

(** A [Field] of redux-form. *)
Record FieldView := {
  field_name : string;
  field_component : FieldComponent;
  field_type : string;
  field_required : bool;
  field_width : nat;
  field_placeholder : string;
  field_testid : string;
  field_label : option string
}.

(** What the wide column of a row holds under the optional input label:
    the input, or for a toggle the label with the display name. *)
Inductive PropertyControl :=
| InputControl (field : FieldView)
| ToggleCaption (text : string).

(** One [Grid.Row] of the form: the label of an input ([htmlFor], text),
    the wide column with its optional hint, and the narrow column. *)
Record PropertyRowView := {
  prow_key : nat;
  prow_inputLabel : option (string * string);
  prow_control : PropertyControl;
  prow_hint : option string;
  prow_toggle : option FieldView
}.

Record ConnectorFormView := {
  cform_rows : option (list PropertyRowView);
  cform_submit : string
}.

Section DynamicConnectorForm.

(** [GovernanceConnectorUtils.encodeConnectorPropertyName]. *)
Variable encodeConnectorPropertyName : string -> string.

(** [useTranslation()] and [I18n.instance]. *)
Variable t : string -> string.
Variable i18n : string -> string.

(** Props injected by redux-form and by the caller; [testId] is the
    ["data-testid"] prop. *)
Variable testId : string.
Variable form : string.
Variable properties : option (list ConnectorPropertyInterface).

(** [state.form] of the store. *)
Variable formState : gmap string FormState.

(** The row of one property; [None] is the [TypeError] of reading a value
    while the form has no values. *)
Definition renderProperty (formValues : option (gmap string FormValue))
    (property : ConnectorPropertyInterface) (index : nat) : option PropertyRowView :=
  toggle ←
    (if isToggle property
     then
       values ← formValues;
       Some (Some
         {| field_name := encodeConnectorPropertyName (prop_name property);
            field_component := RenderToggle;
            field_type := getFieldType property;
            field_required := false;
            field_width := 10;
            field_placeholder := prop_value property;
            field_testid := testId +:+ "-" +:+ prop_name property;
            field_label :=
              Some (if truthy_value
                         (values !! encodeConnectorPropertyName (prop_name property))
                    then t "adminPortal:components.governanceConnectors.enabled"
                    else t "adminPortal:components.governanceConnectors.disabled") |})
     else Some None);
  Some
    {| prow_key := index;
       prow_inputLabel :=
         if bool_decide (getFieldComponent property = RenderInput)
         then Some (prop_name property, prop_displayName property)
         else None;
       prow_control :=
         if negb (isToggle property)
         then InputControl
                {| field_name := encodeConnectorPropertyName (prop_name property);
                   field_component := getFieldComponent property;
                   field_type := getFieldType property;
                   field_required := true;
                   field_width := 12;
                   field_placeholder := prop_value property;
                   field_testid := testId +:+ "-" +:+ prop_name property;
                   field_label := None |}
         else ToggleCaption (prop_displayName property);
       prow_hint :=
         if bool_decide (prop_description property <> EmptyString)
         then Some (prop_description property)
         else None;
       prow_toggle := toggle |}.

(** [properties.map((property, index) => ..)]. *)
Fixpoint renderProperties (formValues : option (gmap string FormValue))
    (index : nat) (props : list ConnectorPropertyInterface)
  : option (list PropertyRowView) :=
  match props with
  | [] => Some []
  | property :: rest =>
      row ← renderProperty formValues property index;
      rows ← renderProperties formValues (S index) rest;
      Some (row :: rows)
  end.

(** [DynamicConnectorForm]; [None] is a thrown [TypeError]:
    [state.form[props.form].values] when the store has no such form, or the
    label of a toggle when the form has no values. *)
Definition DynamicConnectorForm : option ConnectorFormView :=
  formOfStore ← formState !! form;
  let formValues := form_values formOfStore in
  rows ←
    match properties with
    | Some props => Some <$> renderProperties formValues 0 props
    | None => Some None
    end;
  Some {| cform_rows := rows; cform_submit := i18n "common:update" |}.

End DynamicConnectorForm.

(** * Properties *)

(** ** Rendering of lists *)

Lemma bind_Some {A B} (m : Render A) (f : A -> Render B) acts b :
  bind m f = (acts, Some b) ->
  exists a1 a a2, m = (a1, Some a) /\ f a = (a2, Some b) /\ acts = a1 ++ a2.
Proof.
  unfold bind. destruct m as [a1 [a|]]; [|discriminate].
  destruct (f a) as [a2 r] eqn:Hf. intros [= <- ->]. eauto 6.
Qed.

Lemma mapM_from_lookup {A B} (f : A -> nat -> Render B) xs :
  forall i acts ys,
    mapM_from f i xs = (acts, Some ys) ->
    forall j y, ys !! j = Some y ->
      exists x a, xs !! j = Some x /\ f x (i + j)%nat = (a, Some y).
Proof.
  induction xs as [|x xs IH]; simpl; intros i acts ys H j y Hj.
  - injection H as _ <-. destruct j; discriminate.
  - apply bind_Some in H as (a1 & y0 & a2 & Hx & H & _).
    apply bind_Some in H as (a3 & ys0 & a4 & Hxs & H & _).
    injection H as _ <-.
    destruct j as [|j]; simpl in Hj.
    + injection Hj as <-. exists x, a1. rewrite Nat.add_0_r. auto.
    + destruct (IH _ _ _ Hxs _ _ Hj) as (x' & a & Hl & Hf).
      exists x', a. split; [exact Hl|]. rewrite <- Hf. f_equal. lia.
Qed.

Lemma mapM_from_const {A B} (f : A -> nat -> Render B) (b : B) xs :
  (forall x i, f x i = ret b) ->
  forall i, mapM_from f i xs = ret (replicate (length xs) b).
Proof.
  intros Hf. induction xs as [|x xs IH]; intros i; simpl; [reflexivity|].
  rewrite Hf, IH. reflexivity.
Qed.

(** ** The rows of a rendered rule *)

Section Rendered.

Variable componentId : option string.
Variable readonly : option bool.
Variable ruleInstance : RuleInterface.
Variable conditionExpressionsMeta : list ConditionExpressionMetaInterface.
Variable t : string -> string.
Variable useGetResourceList : string -> RequestResult ResourceListData.
Variable uiState : nat -> nat -> ExpressionState.

(** Every row of a rendered rule is the view [RuleExpression] returns for
    an expression of an AND condition of an OR rule. *)
Lemma rowAt_RuleExpression acts view i j row :
  RuleConditions componentId readonly ruleInstance conditionExpressionsMeta t
    useGetResourceList uiState = (acts, Some view) ->
  rowAt view i j row ->
  exists condition expression a,
    rule_rules ruleInstance !! i = Some condition /\
    cond_expressions condition !! j = Some expression /\
    rule_condition ruleInstance = Or /\
    cond_condition condition = And /\
    RuleExpression readonly conditionExpressionsMeta t useGetResourceList
      expression (rule_id ruleInstance) (cond_id condition) j
      (bool_decide (1 < length (cond_expressions condition))%nat
       || bool_decide (1 < length (rule_rules ruleInstance))%nat)
      (uiState i j) = (a, Some row).
Proof.
  unfold RuleConditions, mapM_idx. intros H (fragment & rows & Hi & Hrows & Hj).
  apply bind_Some in H as (a1 & children & a2 & Hc & H & _).
  injection H as _ <-. simpl in Hi.
  destruct (mapM_from_lookup _ _ _ _ _ Hc _ _ Hi) as (condition & a & Hcond & Hr).
  simpl in Hr. unfold renderCondition in Hr.
  case_bool_decide as Hor; [|discriminate].
  apply bind_Some in Hr as (a3 & expressions & a4 & He & Hr & _).
  injection Hr as _ <-. simpl in Hrows. subst expressions.
  case_bool_decide as Hand; [|discriminate].
  apply bind_Some in He as (a5 & rows' & a6 & Hm & He & _).
  injection He as _ <-.
  destruct (mapM_from_lookup _ _ _ _ _ Hm _ _ Hj) as (expression & a7 & Hexpr & Hrow).
  exists condition, expression, a7. simpl in Hrow. auto 6.
Qed.

End Rendered.

(** ** Remove button and field selector of a row *)

Lemma RuleExpression_removeFab readonly meta t fetch expression ruleId conditionId
    index removable st a row :
  RuleExpression readonly meta t fetch expression ruleId conditionId index removable st
    = (a, Some row) ->
  box_removeFab row =
    if removable && negb (truthy_bool readonly)
    then Some {| fab_ariaLabel := "delete";
                 fab_onClick :=
                   [Call (removeRuleConditionExpression ruleId (expr_id expression))] |}
    else None.
Proof.
  unfold RuleExpression. intros H.
  apply bind_Some in H as (a1 & valueInput & a2 & _ & H & _).
  injection H as _ <-. reflexivity.
Qed.

Lemma RuleExpression_fieldSelect readonly meta t fetch expression ruleId conditionId
    index removable st a row v :
  RuleExpression readonly meta t fetch expression ruleId conditionId index removable st
    = (a, Some row) ->
  sel_onChange (box_fieldSelect row) v =
    [ callUpdateConditionExpression (Some v) ruleId conditionId (expr_id expression)
        Field true;
      callUpdateConditionExpression (Some EmptyString) ruleId conditionId (expr_id expression)
        Value true ].
Proof.
  unfold RuleExpression. intros H.
  apply bind_Some in H as (a1 & valueInput & a2 & _ & H & _).
  injection H as _ <-. reflexivity.
Qed.

(** C2, as the code has it.  On a row of a rendered rule the remove button
    is present if and only if the component is not read-only and the owning
    condition has more than one expression or the rule has more than one
    condition. *)
Theorem remove_button_iff componentId readonly rule meta t fetch uiState
    acts view i j row condition :
  RuleConditions componentId readonly rule meta t fetch uiState = (acts, Some view) ->
  rowAt view i j row ->
  rule_rules rule !! i = Some condition ->
  is_Some (box_removeFab row) <->
    truthy_bool readonly = false /\
    ((1 < length (cond_expressions condition))%nat \/ (1 < length (rule_rules rule))%nat).
Proof.
  intros Hview Hrow Hcond.
  destruct (rowAt_RuleExpression _ _ _ _ _ _ _ _ _ _ _ _ Hview Hrow)
    as (condition' & expression & a & Hcond' & _ & _ & _ & Hr).
  rewrite Hcond in Hcond'. injection Hcond' as <-.
  rewrite (RuleExpression_removeFab _ _ _ _ _ _ _ _ _ _ _ _ Hr).
  destruct (truthy_bool readonly); simpl.
  { rewrite andb_false_r. split; [intros [? [=]] | intros [[=] _]]. }
  rewrite andb_true_r.
  destruct (orb _ _) eqn:Hor.
  - apply orb_true_iff in Hor. rewrite !bool_decide_eq_true in Hor.
    split; [intros _; auto | intros _; eexists; reflexivity].
  - apply orb_false_iff in Hor. rewrite !bool_decide_eq_false in Hor.
    split; [intros [? [=]] | intros [_ [?|?]]; tauto].
Qed.

(** The theorem at the rule with two conditions of one expression each,
    not read-only: both rows carry the button. *)
Lemma remove_button_iff_two_conditions :
  exists view row,
    Sample.render None Sample.twoConditions = ([], Some view) /\
    rowAt view 1 0 row /\
    (is_Some (box_removeFab row) <->
       truthy_bool None = false /\
       ((1 < 1)%nat \/ (1 < 2)%nat)).
Proof.
  eexists _, _. split; [reflexivity|]. split.
  - eexists _, _. repeat split; reflexivity.
  - eapply (remove_button_iff None None Sample.twoConditions Sample.meta Sample.t
             Sample.useGetResourceList Sample.uiState [] _ 1 0 _
             {| cond_id := "c2"; cond_condition := And;
                cond_expressions := [ Sample.expression "e2" "note" "x" ] |}).
    + reflexivity.
    + eexists _, _. repeat split; reflexivity.
    + reflexivity.
Defined.

(** C2 as stated fails on a read-only component: the rule has two
    conditions, and no row carries the remove button. *)
Lemma remove_button_absent_though_removable :
  (1 < length (rule_rules Sample.twoConditions))%nat /\
  removeButtons <$> (Sample.render (Some true) Sample.twoConditions).2
    = Some [[false]; [false]].
Proof. split; [simpl; lia | reflexivity]. Qed.

(** C10.  On a read-only component no row of the rendered rule carries the
    remove button, whatever the numbers of expressions and conditions. *)
Theorem readonly_hides_remove_button componentId readonly rule meta t fetch uiState
    acts view i j row :
  truthy_bool readonly = true ->
  RuleConditions componentId readonly rule meta t fetch uiState = (acts, Some view) ->
  rowAt view i j row ->
  box_removeFab row = None.
Proof.
  intros Hro Hview Hrow.
  destruct (rowAt_RuleExpression _ _ _ _ _ _ _ _ _ _ _ _ Hview Hrow)
    as (condition & expression & a & _ & _ & _ & _ & Hr).
  rewrite (RuleExpression_removeFab _ _ _ _ _ _ _ _ _ _ _ _ Hr), Hro.
  rewrite andb_false_r. reflexivity.
Qed.

Lemma readonly_hides_remove_button_two_conditions :
  exists view row,
    Sample.render (Some true) Sample.twoConditions = ([], Some view) /\
    rowAt view 0 0 row /\
    box_removeFab row = None.
Proof.
  eexists _, _. split; [reflexivity|]. split.
  - eexists _, _. repeat split; reflexivity.
  - eapply (readonly_hides_remove_button None (Some true) Sample.twoConditions
             Sample.meta Sample.t Sample.useGetResourceList Sample.uiState [] _ 0 0 _).
    + reflexivity.
    + reflexivity.
    + eexists _, _. repeat split; reflexivity.
Defined.

(** C3.  On every row of a rendered rule, selecting a field calls
    [updateConditionExpression] twice, directly and in order: first with the
    selected field, then with the empty string as the value; both calls
    reach the context at the time of the selection. *)
Theorem field_change_resets_value componentId readonly rule meta t fetch uiState
    acts view i j row condition expression v now :
  RuleConditions componentId readonly rule meta t fetch uiState = (acts, Some view) ->
  rowAt view i j row ->
  rule_rules rule !! i = Some condition ->
  cond_expressions condition !! j = Some expression ->
  let setField :=
    updateConditionExpression
      {| changedValue := Some v; ruleId := rule_id rule; conditionId := cond_id condition;
         expressionId := expr_id expression; fieldName := Field; isUserOnChange := true |} in
  let clearValue :=
    updateConditionExpression
      {| changedValue := Some EmptyString; ruleId := rule_id rule; conditionId := cond_id condition;
         expressionId := expr_id expression; fieldName := Value; isUserOnChange := true |} in
  sel_onChange (box_fieldSelect row) v = [Call setField; Call clearValue] /\
  dispatched [(now, sel_onChange (box_fieldSelect row) v)] now
    = [(now, setField); (now, clearValue)].
Proof.
  intros Hview Hrow Hcond Hexpr.
  destruct (rowAt_RuleExpression _ _ _ _ _ _ _ _ _ _ _ _ Hview Hrow)
    as (condition' & expression' & a & Hcond' & Hexpr' & _ & _ & Hr).
  rewrite Hcond in Hcond'. injection Hcond' as <-.
  rewrite Hexpr in Hexpr'. injection Hexpr' as <-.
  rewrite (RuleExpression_fieldSelect _ _ _ _ _ _ _ _ _ _ _ _ v Hr).
  split; reflexivity.
Qed.

Lemma field_change_resets_value_single :
  exists view row,
    Sample.render None Sample.single = ([], Some view) /\
    rowAt view 0 0 row /\
    sel_onChange (box_fieldSelect row) "note" =
      [ Call (updateConditionExpression
                {| changedValue := Some "note"; ruleId := "r"; conditionId := "c1";
                   expressionId := "e1"; fieldName := Field; isUserOnChange := true |});
        Call (updateConditionExpression
                {| changedValue := Some EmptyString; ruleId := "r"; conditionId := "c1";
                   expressionId := "e1"; fieldName := Value; isUserOnChange := true |}) ].
Proof.
  eexists _, _. split; [reflexivity|]. split.
  - eexists _, _. repeat split; reflexivity.
  - eapply (field_change_resets_value None None Sample.single Sample.meta Sample.t
              Sample.useGetResourceList Sample.uiState [] _ 0 0 _
              {| cond_id := "c1"; cond_condition := And;
                 cond_expressions := [ Sample.expression "e1" "grantType" "password" ] |}
              (Sample.expression "e1" "grantType" "password") "note" 0%Z).
    + reflexivity.
    + eexists _, _. repeat split; reflexivity.
    + reflexivity.
    + reflexivity.
Defined.

(** C4.  For a rule whose outer operator is not OR, every child of the root
    element is [false]: no condition, expression or control is rendered, and
    the render calls nothing. *)
Theorem non_or_rule_renders_nothing componentId readonly rule meta t fetch uiState :
  rule_condition rule <> Or ->
  RuleConditions componentId readonly rule meta t fetch uiState
    = ([], Some {| root_componentId := default "rules-component-condition" componentId;
                   root_children := replicate (length (rule_rules rule)) None |}).
Proof.
  intros Hnot. unfold RuleConditions, mapM_idx.
  rewrite (mapM_from_const _ None).
  - reflexivity.
  - intros condition index. unfold renderCondition.
    rewrite bool_decide_eq_false_2 by exact Hnot. reflexivity.
Qed.

Lemma non_or_rule_renders_nothing_and_rooted :
  Sample.render None Sample.andRooted
    = ([], Some {| root_componentId := "rules-component-condition";
                   root_children := [None; None] |}).
Proof.
  apply (non_or_rule_renders_nothing None None Sample.andRooted Sample.meta Sample.t
           Sample.useGetResourceList Sample.uiState).
  discriminate.
Defined.

(** ** Resource lookups *)






(** C8.  In the autocomplete, when the filtered collection's [totalResults]
    exceeds its [count], the options are the current options followed by the
    "more items" sentinel; the sentinel is disabled, and choosing it, or any
    disabled option, performs no action. *)
Theorem more_items_sentinel readonly t fetch valueReferenceAttribute valueDisplayAttribute
    resourceDetails resourceType initialUrl filterBaseUrl ruleId conditionId expressionId
    st filtered total fetchedCount :
  data (fetch (filterUrl (inputValueLabel st) initialUrl filterBaseUrl)) = Some filtered ->
  totalResults filtered = Some total ->
  count filtered = Some fetchedCount ->
  (fetchedCount < total)%Z ->
  exists view,
    ValueInputAutocomplete readonly t fetch valueReferenceAttribute valueDisplayAttribute
      resourceDetails resourceType initialUrl filterBaseUrl ruleId conditionId
      expressionId st = ([], Some view) /\
    ac_options view = options st ++ [moreItems t] /\
    opt_isDisabled (moreItems t) = true /\
    ac_onChange view (Some (moreItems t)) = [] /\
    forall option, opt_isDisabled option = true -> ac_onChange view (Some option) = [].
Proof.
  intros Hdata Htotal Hcount Hlt.
  eexists. split; [reflexivity|]. simpl.
  rewrite Hdata. unfold hasMoreItems, js_gt. rewrite Htotal, Hcount.
  assert ((fetchedCount <? total)%Z = true) as -> by (apply Z.ltb_lt; exact Hlt).
  repeat split. intros option ->. reflexivity.
Qed.

Lemma more_items_sentinel_paged_applications :
  exists view,
    ValueInputAutocomplete None Sample.t Sample.useGetResourceList "id" "name" None
      (Some "applications") "/applications?limit=2" "/applications?filter=&limit=2"
      "r" "c1" "e1" initialState = ([], Some view) /\
    ac_options view = [moreItems Sample.t] /\
    opt_isDisabled (moreItems Sample.t) = true /\
    ac_onChange view (Some (moreItems Sample.t)) = [] /\
    forall option, opt_isDisabled option = true -> ac_onChange view (Some option) = [].
Proof.
  apply (more_items_sentinel None Sample.t Sample.useGetResourceList "id" "name" None
           (Some "applications") "/applications?limit=2" "/applications?filter=&limit=2"
           "r" "c1" "e1" initialState Sample.pagedApplications 3%Z 2%Z).
  - reflexivity.
  - reflexivity.
  - reflexivity.
  - lia.
Defined.

(** ** The debounced dispatcher *)

Lemma expire_early now lastCallTime lastArgs :
  (now < lastCallTime + 300)%Z ->
  expire now (Some (lastCallTime, lastArgs)) = (Some (lastCallTime, lastArgs), []).
Proof.
  intros H. unfold expire, debounceWait.
  destruct (Z.leb_spec (lastCallTime + 300) now); [lia | reflexivity].
Qed.

Lemma expire_due now lastCallTime lastArgs :
  (lastCallTime + 300 <= now)%Z ->
  expire now (Some (lastCallTime, lastArgs))
    = (None, [((lastCallTime + 300)%Z, updateConditionExpression lastArgs)]).
Proof.
  intros H. unfold expire, debounceWait.
  destruct (Z.leb_spec (lastCallTime + 300) now); [reflexivity | lia].
Qed.

(** A call of the debounced function replaces the pending call, whatever
    expression either concerns. *)
Lemma act_CallDebounced now args pending :
  act now (CallDebounced args) pending = (Some (now, args), []).
Proof. reflexivity. Qed.

(** After one call of the debounced function, what has been dispatched is
    what its timer has let through. *)
Lemma dispatched_one_debounced now args later :
  dispatched [(now, [CallDebounced args])] later = (expire later (Some (now, args))).2.
Proof. reflexivity. Qed.

(** C5, as the code has it.  For a fixed-list field with more than one
    option and an expression without a value, the render of the value input
    calls the debounced dispatcher, once, with the first option's name and
    the user-initiated flag [false], and returns the dropdown; the call
    reaches [updateConditionExpression] 300 time units later, not before,
    when the debounced function is not called again in between. *)
Theorem first_option_auto_selected readonly t fetch findMeta ruleId conditionId
    expressionField expressionId metaValue first rest st now :
  inputType metaValue = "options" ->
  values metaValue = Some (first :: rest) ->
  (1 < length (first :: rest))%nat ->
  let args :=
    {| changedValue := Some (ld_name first); ruleId := ruleId; conditionId := conditionId;
       expressionId := expressionId; fieldName := Value; isUserOnChange := false |} in
  exists select,
    ConditionValueInput readonly t fetch findMeta ruleId conditionId expressionField
      expressionId EmptyString (Some metaValue) st
      = ([CallDebounced args], Some (Some (VSelect select))) /\
    (forall later, (later < now + 300)%Z ->
       dispatched [(now, [CallDebounced args])] later = []) /\
    (forall later, (now + 300 <= later)%Z ->
       dispatched [(now, [CallDebounced args])] later
         = [((now + 300)%Z, updateConditionExpression args)]).
Proof.
  intros Htype Hvalues Hlen args. unfold ConditionValueInput. simpl.
  rewrite Htype, Hvalues. simpl.
  rewrite (bool_decide_eq_true_2 _ Hlen). simpl.
  eexists. split; [reflexivity|].
  split; intros later H; rewrite dispatched_one_debounced.
  - rewrite expire_early by exact H. reflexivity.
  - rewrite expire_due by exact H. reflexivity.
Qed.

Lemma first_option_auto_selected_grant_type :
  let args :=
    {| changedValue := Some "authorization_code"; ruleId := "r"; conditionId := "c1";
       expressionId := "e1"; fieldName := Value; isUserOnChange := false |} in
  exists select,
    ConditionValueInput None Sample.t Sample.useGetResourceList (Some Sample.grantType)
      "r" "c1" "grantType" "e1" EmptyString (Some Sample.grantTypeValue) initialState
      = ([CallDebounced args], Some (Some (VSelect select))) /\
    (forall later, (later < 0 + 300)%Z ->
       dispatched [(0%Z, [CallDebounced args])] later = []) /\
    (forall later, (0 + 300 <= later)%Z ->
       dispatched [(0%Z, [CallDebounced args])] later
         = [((0 + 300)%Z, updateConditionExpression args)]).
Proof.
  apply (first_option_auto_selected None Sample.t Sample.useGetResourceList
           (Some Sample.grantType) "r" "c1" "grantType" "e1" Sample.grantTypeValue
           {| ld_name := "authorization_code"; ld_displayName := "Authorization code" |}
           [ {| ld_name := "password"; ld_displayName := "Password" |} ]
           initialState 0%Z).
  - reflexivity.
  - reflexivity.
  - simpl. lia.
Defined.

(** C5 as stated fails: at the time of the render, and up to 299 time units
    after it, nothing has been dispatched to [updateConditionExpression];
    the render has only called the debounced dispatcher. *)
Lemma first_option_not_dispatched_at_render :
  let rendered :=
    ConditionValueInput None Sample.t Sample.useGetResourceList (Some Sample.grantType)
      "r" "c1" "grantType" "e1" EmptyString (meta_value Sample.grantType) initialState in
  rendered.1 =
    [CallDebounced
       {| changedValue := Some "authorization_code"; ruleId := "r"; conditionId := "c1";
          expressionId := "e1"; fieldName := Value; isUserOnChange := false |}] /\
  dispatched [(0%Z, rendered.1)] 0 = [] /\
  dispatched [(0%Z, rendered.1)] 299 = [].
Proof. repeat split; reflexivity. Qed.

(** Two rows that both need the automatic selection share the debounced
    function: the render calls it for each, and only the second call is
    dispatched. *)
Lemma auto_selection_superseded_within_render :
  let rendered := Sample.render None Sample.twoGrantTypes in
  rendered.1 =
    [CallDebounced
       {| changedValue := Some "authorization_code"; ruleId := "r"; conditionId := "c1";
          expressionId := "e1"; fieldName := Value; isUserOnChange := false |};
     CallDebounced
       {| changedValue := Some "authorization_code"; ruleId := "r"; conditionId := "c1";
          expressionId := "e2"; fieldName := Value; isUserOnChange := false |}] /\
  dispatched [(0%Z, rendered.1)] 1000 =
    [(300%Z, updateConditionExpression
               {| changedValue := Some "authorization_code"; ruleId := "r";
                  conditionId := "c1"; expressionId := "e2"; fieldName := Value;
                  isUserOnChange := false |})].
Proof. split; reflexivity. Qed.

Lemma expire_None now : expire now None = (None, []).
Proof. reflexivity. Qed.

(** A debounced call at [now], then the remaining events. *)
Lemma run_debounced now args rest pending :
  run ((now, [CallDebounced args]) :: rest) pending
    = ((run rest (Some (now, args))).1,
       (expire now pending).2 ++ (run rest (Some (now, args))).2).
Proof.
  cbn [run]. destruct (expire now pending) as [p1 l1].
  cbn [acts act]. destruct (run rest (Some (now, args))) as [p3 l3].
  reflexivity.
Qed.

(** The free-text field of [ConditionValueInput]. *)
Lemma ConditionValueInput_input readonly t fetch findMeta ruleId conditionId
    expressionField expressionId expressionValue metaValue st :
  inputType metaValue = "input" ->
  ConditionValueInput readonly t fetch findMeta ruleId conditionId expressionField
    expressionId expressionValue (Some metaValue) st
  = ([], Some (Some (VTextField
       {| tf_disabled := readonly;
          tf_value := expressionValue;
          tf_componentId := "rules-condition-expression-input-value";
          tf_onChange := fun v =>
            [handleExpressionChangeDebounced (Some v) ruleId conditionId expressionId
               Value true] |}))).
Proof.
  intros Htype. unfold ConditionValueInput. simpl fmap. rewrite Htype.
  rewrite bool_decide_eq_true_2 by reflexivity. reflexivity.
Qed.

(** C1, as the code has it.  The free-text fields of one render share one
    debounced function with a wait of 300.  Three edits of a field within
    300 time units produce exactly one call of [updateConditionExpression],
    300 after the third edit and carrying its value.  An edit of the field
    of another expression within the wait replaces the pending edit: only
    the later one is dispatched. *)
Theorem free_text_edits_debounced readonly t fetch
    findMetaA ruleIdA conditionIdA fieldA expressionIdA valueA metaValueA stA
    findMetaB ruleIdB conditionIdB fieldB expressionIdB valueB metaValueB stB :
  inputType metaValueA = "input" ->
  inputType metaValueB = "input" ->
  exists inputA inputB,
    ConditionValueInput readonly t fetch findMetaA ruleIdA conditionIdA fieldA
      expressionIdA valueA (Some metaValueA) stA
      = ([], Some (Some (VTextField inputA))) /\
    ConditionValueInput readonly t fetch findMetaB ruleIdB conditionIdB fieldB
      expressionIdB valueB (Some metaValueB) stB
      = ([], Some (Some (VTextField inputB))) /\
    (forall v1 v2 v3 t1 t2 t3 now,
       (t1 <= t2)%Z -> (t2 <= t3)%Z -> (t3 < t1 + 300)%Z -> (t3 + 300 <= now)%Z ->
       dispatched [ (t1, tf_onChange inputA v1); (t2, tf_onChange inputA v2);
                    (t3, tf_onChange inputA v3) ] now
       = [ ((t3 + 300)%Z,
            updateConditionExpression
              {| changedValue := Some v3; ruleId := ruleIdA; conditionId := conditionIdA;
                 expressionId := expressionIdA; fieldName := Value;
                 isUserOnChange := true |}) ]) /\
    (forall v1 v2 t1 t2 now,
       (t1 <= t2)%Z -> (t2 < t1 + 300)%Z -> (t2 + 300 <= now)%Z ->
       dispatched [ (t1, tf_onChange inputA v1); (t2, tf_onChange inputB v2) ] now
       = [ ((t2 + 300)%Z,
            updateConditionExpression
              {| changedValue := Some v2; ruleId := ruleIdB; conditionId := conditionIdB;
                 expressionId := expressionIdB; fieldName := Value;
                 isUserOnChange := true |}) ]).
Proof.
  intros HA HB. eexists _, _.
  split; [apply ConditionValueInput_input; exact HA|].
  split; [apply ConditionValueInput_input; exact HB|].
  cbn [tf_onChange]. unfold handleExpressionChangeDebounced, dispatched. split.
  - intros v1 v2 v3 t1 t2 t3 now H12 H23 H31 Hnow.
    rewrite !run_debounced. cbn [run fst snd].
    rewrite expire_None, !expire_early by lia. rewrite expire_due by lia. reflexivity.
  - intros v1 v2 t1 t2 now H12 H21 Hnow.
    rewrite !run_debounced. cbn [run fst snd].
    rewrite expire_None, !expire_early by lia. rewrite expire_due by lia. reflexivity.
Qed.

Lemma free_text_edits_debounced_two_notes :
  exists inputA inputB,
    ConditionValueInput None Sample.t Sample.useGetResourceList (Some Sample.note)
      "r" "c1" "note" "e1" EmptyString (Some Sample.noteValue) initialState
      = ([], Some (Some (VTextField inputA))) /\
    ConditionValueInput None Sample.t Sample.useGetResourceList (Some Sample.note)
      "r" "c1" "note" "e2" EmptyString (Some Sample.noteValue) initialState
      = ([], Some (Some (VTextField inputB))) /\
    (forall v1 v2 v3 t1 t2 t3 now,
       (t1 <= t2)%Z -> (t2 <= t3)%Z -> (t3 < t1 + 300)%Z -> (t3 + 300 <= now)%Z ->
       dispatched [ (t1, tf_onChange inputA v1); (t2, tf_onChange inputA v2);
                    (t3, tf_onChange inputA v3) ] now
       = [ ((t3 + 300)%Z,
            updateConditionExpression
              {| changedValue := Some v3; ruleId := "r"; conditionId := "c1";
                 expressionId := "e1"; fieldName := Value; isUserOnChange := true |}) ]) /\
    (forall v1 v2 t1 t2 now,
       (t1 <= t2)%Z -> (t2 < t1 + 300)%Z -> (t2 + 300 <= now)%Z ->
       dispatched [ (t1, tf_onChange inputA v1); (t2, tf_onChange inputB v2) ] now
       = [ ((t2 + 300)%Z,
            updateConditionExpression
              {| changedValue := Some v2; ruleId := "r"; conditionId := "c1";
                 expressionId := "e2"; fieldName := Value; isUserOnChange := true |}) ]).
Proof.
  apply (free_text_edits_debounced None Sample.t Sample.useGetResourceList
           (Some Sample.note) "r" "c1" "note" "e1" EmptyString Sample.noteValue initialState
           (Some Sample.note) "r" "c1" "note" "e2" EmptyString Sample.noteValue initialState).
  - reflexivity.
  - reflexivity.
Defined.

(** Typing "a", "ab", "abc" into one field at times 0, 100 and 200. *)
Example three_edits_one_dispatch :
  let rendered := Sample.render None Sample.twoNotes in
  dispatched [ (0%Z, typeInto rendered 0 0 "a"); (100%Z, typeInto rendered 0 0 "ab");
               (200%Z, typeInto rendered 0 0 "abc") ] 500
  = [ (500%Z, updateConditionExpression
                {| changedValue := Some "abc"; ruleId := "r"; conditionId := "c1";
                   expressionId := "e1"; fieldName := Value; isUserOnChange := true |}) ].
Proof. reflexivity. Qed.

(** C1 as stated fails: the debounce is not keyed per expression.  With "a"
    typed into the field of expression [e1] at time 0 and "b" into the field
    of expression [e2] at time 100, the only call that ever reaches the
    context is the one for [e2]; the pending edit of [e1] is superseded. *)
Lemma later_edit_supersedes_other_expression :
  let rendered := Sample.render None Sample.twoNotes in
  let log :=
    dispatched [ (0%Z, typeInto rendered 0 0 "a"); (100%Z, typeInto rendered 0 1 "b") ]
      1000 in
  log = [ (400%Z, updateConditionExpression
                    {| changedValue := Some "b"; ruleId := "r"; conditionId := "c1";
                       expressionId := "e2"; fieldName := Value;
                       isUserOnChange := true |}) ] /\
  updatesOf "e1" log = [].
Proof. split; reflexivity. Qed.

(** ** The resource list *)

(** Where the render of [ResourceListSelect] completes (the expression has a
    value, or the collection holds an array under the resource type), the
    variant follows the comparison of [totalResults] with [count]: the
    autocomplete when it is greater, the dropdown over all fetched
    resources otherwise. *)
Lemma ResourceListSelect_variant readonly t fetch ruleId conditionId expressionValue
    expressionId expressionField findMeta initialUrl filterBaseUrl st fetched :
  data (fetch initialUrl) = Some fetched ->
  expressionValue <> EmptyString \/
    is_Some (collections fetched !! interpolate (resourceTypeOf expressionField)) ->
  exists calls view,
    ResourceListSelect readonly t fetch ruleId conditionId expressionValue expressionId
      expressionField findMeta initialUrl filterBaseUrl st = (calls, Some (Some view)) /\
    if js_gt (totalResults fetched) (count fetched)
    then exists autocomplete, view = VAutocomplete autocomplete
    else exists select,
           view = VSelect select /\
           (length <$> sel_items select) =
             (length <$> collections fetched !! interpolate (resourceTypeOf expressionField)).
Proof.
  intros Hdata Hok. unfold ResourceListSelect. rewrite Hdata.
  assert (exists calls,
            (if bool_decide (expressionValue = EmptyString)
             then match collections fetched !! interpolate (resourceTypeOf expressionField) with
                  | Some resources =>
                      perform (handleExpressionChangeDebounced
                                 (head resources ≫= (fun r : ResourceInterface => r !! "id"))
                                 ruleId conditionId expressionId Value false)
                  | None => throw
                  end
             else ret tt) = (calls, Some tt)) as [calls ->].
  { case_bool_decide as Hvalue; [|eexists; reflexivity].
    destruct Hok as [Hne|[resources ->]]; [contradiction|]. eexists. reflexivity. }
  destruct (js_gt (totalResults fetched) (count fetched)).
  - eexists _, _. split; [reflexivity|]. eexists. reflexivity.
  - eexists _, _. split; [reflexivity|]. eexists. split; [reflexivity|].
    simpl. destruct (collections fetched !! _); simpl; [|reflexivity].
    rewrite length_imap. reflexivity.
Qed.

(** C6, at the failing input.  An expression on the field ["role"] without
    a value: the collection is fetched and its [totalResults] exceeds its
    [count], but [resourceType] is undefined, the lookup of the first
    resource throws, and neither variant is rendered; the whole render of
    the rule fails with it. *)
Lemma resource_select_throws_without_resource_type :
  data (Sample.useGetResourceList "/roles?limit=2") = Some Sample.pagedRoles /\
  js_gt (totalResults Sample.pagedRoles) (count Sample.pagedRoles) = true /\
  ResourceListSelect None Sample.t Sample.useGetResourceList "r" "c1" EmptyString "e1" "role"
    (Some Sample.role) "/roles?limit=2" "/roles?filter=&limit=2" initialState
    = ([], None) /\
  Sample.render None Sample.roleWithoutValue = ([], None).
Proof. repeat split; reflexivity. Qed.

(** ** The template configuration *)

Section MergeById.

Context {T W : Type}.
Variable mergeResource : T -> T -> T.
Variable mergeWizardHelp : W -> W -> W.

Lemma keyBy_snoc (collection : list (TemplateConfigInterface T W)) entry :
  keyBy (collection ++ [entry]) = <[id entry := entry]> (keyBy collection).
Proof. unfold keyBy. rewrite foldl_app. reflexivity. Qed.

(** Keyed, a list holds for each id its last entry with that id. *)
Lemma keyBy_lookup (collection : list (TemplateConfigInterface T W)) key :
  keyBy collection !! key = entryFor key collection.
Proof.
  induction collection as [|entry collection IH] using rev_ind.
  - reflexivity.
  - rewrite keyBy_snoc. unfold entryFor in *. rewrite List.filter_app. simpl.
    case_bool_decide as Hid.
    + rewrite Hid, lookup_insert_eq, last_snoc. reflexivity.
    + rewrite lookup_insert_ne by exact Hid. rewrite app_nil_r. exact IH.
Qed.

Lemma entryFor_id (collection : list (TemplateConfigInterface T W)) key entry :
  entryFor key collection = Some entry -> id entry = key.
Proof.
  unfold entryFor. intros H. apply last_Some in H as [prefix H].
  assert (List.In entry (List.filter (fun e => bool_decide (id e = key)) collection)) as Hin.
  { rewrite H. apply in_or_app. right. left. reflexivity. }
  apply List.filter_In in Hin as [_ Hid]. apply bool_decide_eq_true in Hid. exact Hid.
Qed.

Lemma merge_lookup (object source : gmap string (TemplateConfigInterface T W)) key :
  merge mergeResource mergeWizardHelp object source !! key =
    match object !! key,
          (if bool_decide (key = "__proto__") then None else source !! key) with
    | Some o, Some s => Some (mergeEntry mergeResource mergeWizardHelp o s)
    | Some o, None => Some o
    | None, Some s => Some s
    | None, None => None
    end.
Proof.
  unfold merge. rewrite lookup_union_with, lookup_delete.
  case_bool_decide as Hkey.
  - subst key. rewrite decide_True by reflexivity.
    destruct (object !! "__proto__"); reflexivity.
  - rewrite decide_False by congruence.
    destruct (object !! key), (source !! key); reflexivity.
Qed.

(** In the merged object every entry is stored under its own id. *)
Lemma merge_keyBy_id builtIn extension key entry :
  merge mergeResource mergeWizardHelp (keyBy builtIn) (keyBy extension) !! key = Some entry ->
  id entry = key.
Proof.
  rewrite merge_lookup, !keyBy_lookup.
  destruct (entryFor key builtIn) as [b|] eqn:Hb.
  - case_bool_decide; [intros [= <-]; exact (entryFor_id _ _ _ Hb)|].
    destruct (entryFor key extension) as [x|] eqn:Hx; intros [= <-].
    + simpl. exact (entryFor_id _ _ _ Hx).
    + exact (entryFor_id _ _ _ Hb).
  - case_bool_decide; [discriminate|].
    destruct (entryFor key extension) as [x|] eqn:Hx; intros [= <-].
    exact (entryFor_id _ _ _ Hx).
Qed.

Lemma mergeEntry_fields (b x entry : TemplateConfigInterface T W) :
  entry = mergeEntry mergeResource mergeWizardHelp b x <->
  enabled entry = enabled x /\
  id entry = id x /\
  resource entry =
    match resource x with
    | Undefined => resource b
    | Null => Null
    | Defined s =>
        match resource b with
        | Defined o => Defined (mergeResource o s)
        | _ => Defined s
        end
    end /\
  wizardHelp entry =
    match wizardHelp x with
    | Undefined => wizardHelp b
    | Null => Null
    | Defined s =>
        match wizardHelp b with
        | Defined o => Defined (mergeWizardHelp o s)
        | _ => Defined s
        end
    end.
Proof.
  split.
  - intros ->. repeat split.
  - destruct entry as [e i r w]. simpl. intros (-> & -> & -> & ->). reflexivity.
Qed.

Lemma mergeById_MergedById builtIn extension :
  MergedById mergeResource mergeWizardHelp builtIn extension
    (mergeById mergeResource mergeWizardHelp builtIn extension).
Proof.
  unfold MergedById, mergeById, values_.
  set (merged := merge mergeResource mergeWizardHelp (keyBy builtIn) (keyBy extension)).
  split.
  - assert (id <$> (map_to_list merged).*2 = (map_to_list merged).*1) as ->.
    { rewrite <- list_fmap_compose. apply Forall_fmap_ext, Forall_forall.
      intros [key entry] Hin. apply elem_of_map_to_list in Hin. simpl.
      exact (merge_keyBy_id _ _ _ _ Hin). }
    apply NoDup_fst_map_to_list.
  - intros entry. rewrite list_elem_of_fmap. split.
    + intros ([key entry'] & -> & Hin). simpl.
      apply elem_of_map_to_list in Hin.
      pose proof (merge_keyBy_id _ _ _ _ Hin) as Hid.
      subst merged. rewrite merge_lookup, !keyBy_lookup, <- Hid in Hin.
      clear Hid.
      destruct (entryFor (id entry') builtIn) as [b|],
               (if bool_decide (id entry' = "__proto__")
                then None
                else entryFor (id entry') extension) as [x|];
        [| |congruence..].
      * injection Hin as <-. repeat split.
      * congruence.
    + intros H. exists (id entry, entry). split; [reflexivity|].
      apply elem_of_map_to_list. subst merged. rewrite merge_lookup, !keyBy_lookup.
      destruct (entryFor (id entry) builtIn) as [b|],
               (if bool_decide (id entry = "__proto__")
                then None
                else entryFor (id entry) extension) as [x|];
        [|congruence..|contradiction].
      apply (proj2 (mergeEntry_fields b x entry)) in H. congruence.
Qed.

End MergeById.

(** C9, as the code has it.  The configuration is, for the groups and for
    the templates, the merge by id of the built-in entries with the entries
    of the extensions, an extension entry of id [__proto__] left aside: at
    most one entry per id; for an id both lists hold, an entry with the
    extension's [enabled] and [id], whose [resource] and [wizardHelp] are
    the extension's where it defines them ([null] included; a value is
    merged over the built-in's value) and the built-in's where it leaves
    them undefined; for an id one list holds, that list's entry. *)
Theorem getApplicationTemplatesConfig_merged_by_id {G A W : Type}
    (groupId : G -> string) (templateId : A -> string)
    (mergeGroup : G -> G -> G) (mergeTemplate : A -> A -> A) (mergeWizardHelp : W -> W -> W)
    (web desktop mobile : G) (android oidc saml spa windows custom : A)
    (androidHelp oidcHelp samlHelp spaHelp windowsHelp customHelp : W)
    (extensionsConfig : ApplicationTemplatesConfigInterface G A W) :
  let config :=
    getApplicationTemplatesConfig groupId templateId mergeGroup mergeTemplate
      mergeWizardHelp web desktop mobile android oidc saml spa windows custom
      androidHelp oidcHelp samlHelp spaHelp windowsHelp customHelp extensionsConfig in
  MergedById mergeGroup mergeWizardHelp
    (builtInGroups groupId web desktop mobile)
    (groups extensionsConfig) (groups config) /\
  MergedById mergeTemplate mergeWizardHelp
    (builtInTemplates templateId android oidc saml spa windows custom
       androidHelp oidcHelp samlHelp spaHelp windowsHelp customHelp)
    (templates extensionsConfig) (templates config).
Proof.
  intros config. split; apply mergeById_MergedById.
Qed.

(** C9 as stated fails for the id [__proto__]: an extension template of that
    id, new among the built-in ids, is not in the configuration; an
    extension template of any other new id is. *)
Lemma extension_entry_named_proto_is_dropped :
  let extension :=
    {| groups := [];
       templates := [ Sample.entry true "__proto__" (Defined "P");
                      Sample.entry true "custom-2" (Defined "C") ] |} in
  let config :=
    getApplicationTemplatesConfig (fun g : string => g) (fun a : string => a)
      Sample.both Sample.both Sample.both "web" "desktop" "mobile"
      "android" "oidc" "saml" "spa" "windows" "custom"
      "h1" "h2" "h3" "h4" "h5" "h6" extension in
  bool_decide ("__proto__" ∈ id <$> templates extension) = true /\
  bool_decide ("__proto__" ∈ id <$> templates config) = false /\
  bool_decide ("custom-2" ∈ id <$> templates config) = true /\
  length (templates config) = 7%nat.
Proof. vm_compute. repeat split. Qed.

(** An extension that disables the built-in "web" and leaves its resource
    undefined, sets the resource of "desktop" to [null], gives "mobile" a
    resource of its own, and brings "custom". *)
Example merged_by_id_override :
  let result :=
    mergeById Sample.both Sample.both
      [ Sample.entry true "web" (Defined "W"); Sample.entry true "desktop" (Defined "D");
        Sample.entry true "mobile" (Defined "M") ]
      [ Sample.entry false "web" Undefined; Sample.entry true "desktop" Null;
        Sample.entry true "mobile" (Defined "M2");
        Sample.entry true "custom" (Defined "C") ] in
  length result = 4%nat /\
  Sample.entry false "web" (Defined "W") ∈ result /\
  Sample.entry true "desktop" Null ∈ result /\
  Sample.entry true "mobile" (Defined "M+M2") ∈ result /\
  Sample.entry true "custom" (Defined "C") ∈ result.
Proof. vm_compute. repeat split; repeat constructor. Qed.

(** * Further properties *)

(** ** The debounced function over sequences of calls *)

Lemma run_debouncedCalls_cons call rest pending :
  run (debouncedCalls (call :: rest)) pending
    = ((run (debouncedCalls rest) (Some call)).1,
       (expire call.1 pending).2 ++ (run (debouncedCalls rest) (Some call)).2).
Proof.
  destruct call as [now args]. unfold debouncedCalls. rewrite fmap_cons.
  cbn [fst snd]. apply run_debounced.
Qed.

Lemma last_cons_default {A} (x d : A) l : List.last (x :: l) d = List.last l x.
Proof.
  revert x d. induction l as [|y l IH]; intros x d; [reflexivity|].
  change (List.last (x :: y :: l) d) with (List.last (y :: l) d).
  rewrite (IH y d), (IH y x). reflexivity.
Qed.

Lemma run_burst calls :
  forall previous,
    burst previous.1 calls ->
    run (debouncedCalls calls) (Some previous)
      = (Some (List.last calls previous), []).
Proof.
  induction calls as [|call rest IH]; intros previous Hburst.
  - reflexivity.
  - destruct Hburst as (Hle & Hlt & Hrest). unfold debounceWait in Hlt.
    rewrite run_debouncedCalls_cons, (IH call Hrest).
    destruct previous as [t0 a0]. rewrite expire_early by exact Hlt.
    cbn [fst snd app]. rewrite last_cons_default. reflexivity.
Qed.

(** X1.  A burst of calls of the debounced function, of any length and whatever
    expressions the calls concern, is dispatched as one call: the last one,
    300 after it was made. *)
Theorem burst_dispatches_last_call first rest now :
  burst first.1 rest ->
  ((List.last rest first).1 + 300 <= now)%Z ->
  dispatched (debouncedCalls (first :: rest)) now = [delayed (List.last rest first)].
Proof.
  intros Hburst Hnow. unfold dispatched.
  rewrite run_debouncedCalls_cons, (run_burst _ _ Hburst), expire_None.
  cbn [fst snd app]. destruct (List.last rest first) as [tl al].
  rewrite expire_due by exact Hnow. reflexivity.
Qed.

Lemma burst_dispatches_last_call_four :
  let args (v e : string) :=
    {| changedValue := Some v; ruleId := "r"; conditionId := "c1"; expressionId := e;
       fieldName := Value; isUserOnChange := true |} in
  dispatched (debouncedCalls [ (0%Z, args "a" "e1"); (100%Z, args "ab" "e1");
                               (399%Z, args "x" "e2"); (698%Z, args "abc" "e1") ]) 998
    = [ (998%Z, updateConditionExpression (args "abc" "e1")) ].
Proof.
  intros args.
  apply (burst_dispatches_last_call (0%Z, args "a" "e1")
           [ (100%Z, args "ab" "e1"); (399%Z, args "x" "e2"); (698%Z, args "abc" "e1") ]
           998%Z).
  - simpl. unfold debounceWait. lia.
  - simpl. lia.
Defined.

Lemma run_spaced calls :
  forall previous,
    spaced previous.1 calls ->
    run (debouncedCalls calls) (Some previous)
      = (Some (List.last calls previous),
         delayed <$> removelast (previous :: calls)).
Proof.
  induction calls as [|call rest IH]; intros previous Hspaced.
  - reflexivity.
  - destruct Hspaced as (Hge & Hrest). unfold debounceWait in Hge.
    rewrite run_debouncedCalls_cons, (IH call Hrest).
    destruct previous as [t0 a0]. rewrite expire_due by exact Hge.
    cbn [fst snd]. rewrite last_cons_default. reflexivity.
Qed.

(** X2.  Calls of the debounced function made at least 300 apart are all
    dispatched, in the order they were made, each 300 after it was made. *)
Theorem spaced_calls_all_dispatched first rest now :
  spaced first.1 rest ->
  ((List.last rest first).1 + 300 <= now)%Z ->
  dispatched (debouncedCalls (first :: rest)) now = delayed <$> (first :: rest).
Proof.
  intros Hspaced Hnow. unfold dispatched.
  rewrite run_debouncedCalls_cons, (run_spaced _ _ Hspaced), expire_None.
  cbn [fst snd]. rewrite <- (last_cons_default first first rest).
  destruct (List.last (first :: rest) first) as [tl al] eqn:Hlast.
  rewrite expire_due by (rewrite last_cons_default in Hlast; rewrite Hlast in Hnow;
                         exact Hnow).
  cbn [snd].
  change ((tl + 300)%Z, updateConditionExpression al) with (delayed (tl, al)).
  rewrite <- Hlast.
  change [delayed (List.last (first :: rest) first)]
    with (delayed <$> [List.last (first :: rest) first]).
  rewrite app_nil_l, <- fmap_app, <- app_removelast_last by discriminate. reflexivity.
Qed.

Lemma spaced_calls_all_dispatched_three :
  let args (v e : string) :=
    {| changedValue := Some v; ruleId := "r"; conditionId := "c1"; expressionId := e;
       fieldName := Value; isUserOnChange := true |} in
  dispatched (debouncedCalls [ (0%Z, args "a" "e1"); (300%Z, args "x" "e2");
                               (700%Z, args "ab" "e1") ]) 1000
    = [ (300%Z, updateConditionExpression (args "a" "e1"));
        (600%Z, updateConditionExpression (args "x" "e2"));
        (1000%Z, updateConditionExpression (args "ab" "e1")) ].
Proof.
  intros args.
  apply (spaced_calls_all_dispatched (0%Z, args "a" "e1")
           [ (300%Z, args "x" "e2"); (700%Z, args "ab" "e1") ] 1000%Z).
  - simpl. unfold debounceWait. lia.
  - simpl. lia.
Defined.

(** ** The handlers of a row *)

Lemma ConditionValueInput_calls readonly t fetch findMeta rule condition field
    expression value metaValue st :
  Forall (addresses rule condition expression)
    (ConditionValueInput readonly t fetch findMeta rule condition field expression
       value metaValue st).1.
Proof.
  unfold ConditionValueInput, ResourceListSelect, ValueInputAutocomplete, bind, perform,
    throw, ret, handleExpressionChangeDebounced.
  repeat (case_bool_decide || case_match); simplify_eq/=;
    repeat constructor.
Qed.

Lemma ConditionValueInput_handlers readonly t fetch findMeta rule condition field
    expression value metaValue st calls input :
  ConditionValueInput readonly t fetch findMeta rule condition field expression
    value metaValue st = (calls, Some (Some input)) ->
  valueInputDisabled input = readonly /\
  forall actions,
    valueInputHandler input actions ->
    Forall (addresses rule condition expression) actions.
Proof.
  unfold ConditionValueInput, ResourceListSelect, ValueInputAutocomplete, bind, perform,
    throw, ret, handleExpressionChangeDebounced, callUpdateConditionExpression.
  intros H.
  repeat (case_bool_decide || case_match); simplify_eq/=;
    (split; [reflexivity|]); intros actions Hh; inversion Hh; subst; simpl;
    repeat case_match; repeat constructor.
Qed.

Lemma RuleExpression_row readonly meta t fetch expression rule condition index removable
    st calls row :
  RuleExpression readonly meta t fetch expression rule condition index removable st
    = (calls, Some row) ->
  let findMeta :=
    List.find (fun expressionMeta =>
                 bool_decide (ld_name <$> meta_field expressionMeta
                              = Some (expr_field expression))) meta in
  ConditionValueInput readonly t fetch findMeta rule condition (expr_field expression)
    (expr_id expression) (expr_value expression) (findMeta ≫= meta_value) st
    = (calls, Some (box_valueInput row)) /\
  box_key row = index /\
  box_alert row = isResourceMissing st /\
  sel_value (box_fieldSelect row) = expr_field expression /\
  sel_value (box_operatorSelect row) = expr_operator expression /\
  sel_disabled (box_fieldSelect row) = readonly /\
  sel_disabled (box_operatorSelect row) = readonly /\
  btn_disabled (box_andButton row) = readonly /\
  sel_items (box_operatorSelect row) =
    (imap (fun index (item : ListDataInterface) =>
             {| item_value := Some (ld_name item);
                item_key := (expr_id expression, index);
                item_label := Some (ld_displayName item) |})
     <$> (findMeta ≫= meta_operators)) /\
  (forall v, sel_onChange (box_operatorSelect row) v =
     [callUpdateConditionExpression (Some v) rule condition (expr_id expression)
        Operator true]) /\
  btn_onClick (box_andButton row) =
    [Call (addNewRuleConditionExpression rule condition And (Some (expr_id expression)))].
Proof.
  intros H findMeta. unfold RuleExpression in H.
  apply bind_Some in H as (a1 & valueInput & a2 & Hv & H & ->).
  injection H as <- <-. rewrite app_nil_r. fold findMeta in Hv. rewrite Hv.
  repeat split; reflexivity.
Qed.



(** X5.  On every row of a rendered rule, the field selector, the operator
    selector, the "and" button and the value input, whichever it is, are
    disabled exactly by the [readonly] prop. *)
Theorem readonly_disables_every_control componentId readonly rule meta t fetch uiState
    calls view i j row :
  RuleConditions componentId readonly rule meta t fetch uiState = (calls, Some view) ->
  rowAt view i j row ->
  sel_disabled (box_fieldSelect row) = readonly /\
  sel_disabled (box_operatorSelect row) = readonly /\
  btn_disabled (box_andButton row) = readonly /\
  forall input, box_valueInput row = Some input -> valueInputDisabled input = readonly.
Proof.
  intros Hview Hrow.
  destruct (rowAt_RuleExpression _ _ _ _ _ _ _ _ _ _ _ _ Hview Hrow)
    as (condition & expression & a & _ & _ & _ & _ & Hr).
  pose proof (RuleExpression_row _ _ _ _ _ _ _ _ _ _ _ _ Hr)
    as (Hv & _ & _ & _ & _ & Hf & Ho & Hb & _).
  repeat split; try assumption.
  intros input Hinput. rewrite Hinput in Hv.
  exact (proj1 (ConditionValueInput_handlers _ _ _ _ _ _ _ _ _ _ _ _ _ Hv)).
Qed.

Lemma readonly_disables_every_control_grant_type :
  exists view row,
    Sample.render (Some true) Sample.twoConditions = ([], Some view) /\
    rowAt view 0 0 row /\
    sel_disabled (box_fieldSelect row) = Some true /\
    sel_disabled (box_operatorSelect row) = Some true /\
    btn_disabled (box_andButton row) = Some true /\
    forall input, box_valueInput row = Some input -> valueInputDisabled input = Some true.
Proof.
  eexists _, _. split; [reflexivity|]. split.
  - eexists _, _. repeat split; reflexivity.
  - eapply (readonly_disables_every_control None (Some true) Sample.twoConditions
              Sample.meta Sample.t Sample.useGetResourceList Sample.uiState [] _ 0 0 _).
    + reflexivity.
    + eexists _, _. repeat split; reflexivity.
Defined.

(** ** Renders that call nothing *)

Lemma mapM_from_complete {A B} (f : A -> nat -> Render B) xs :
  forall i calls ys,
    mapM_from f i xs = (calls, Some ys) ->
    length ys = length xs /\
    forall j x, xs !! j = Some x ->
      exists a y, f x (i + j)%nat = (a, Some y) /\ ys !! j = Some y.
Proof.
  induction xs as [|x xs IH]; simpl; intros i calls ys H.
  - injection H as _ <-. split; [reflexivity|]. intros j x Hj. destruct j; discriminate.
  - apply bind_Some in H as (a1 & y0 & a2 & Hx & H & _).
    apply bind_Some in H as (a3 & ys0 & a4 & Hxs & H & _).
    injection H as _ <-. destruct (IH _ _ _ Hxs) as [Hlen Hall].
    split; [simpl; rewrite Hlen; reflexivity|].
    intros [|j] x' Hj; simpl in Hj.
    + injection Hj as <-. exists a1, y0. rewrite Nat.add_0_r. auto.
    + destruct (Hall _ _ Hj) as (a & y & Hf & Hy).
      exists a, y. split; [|exact Hy]. rewrite <- Hf. f_equal. lia.
Qed.

Lemma mapM_from_silent {A B} (f : A -> nat -> Render B) xs :
  (forall x i, x ∈ xs -> exists y, f x i = ([], Some y)) ->
  forall i, exists ys, mapM_from f i xs = ([], Some ys).
Proof.
  induction xs as [|x xs IH]; intros Hf i; simpl.
  - eexists. reflexivity.
  - destruct (Hf x i) as [y Hy]; [left|].
    destruct (IH (fun x' i' Hin => Hf x' i' (list_elem_of_further _ _ _ Hin)) (S i))
      as [ys Hys].
    rewrite Hy. simpl. rewrite Hys. eexists. reflexivity.
Qed.

Lemma ConditionValueInput_with_value readonly t fetch findMeta rule condition field
    expression value metaValue st :
  value <> EmptyString ->
  exists input,
    ConditionValueInput readonly t fetch findMeta rule condition field expression value
      metaValue st = ([], Some input).
Proof.
  intros Hvalue.
  unfold ConditionValueInput, ResourceListSelect, ValueInputAutocomplete, bind, perform,
    throw, ret.
  repeat (case_bool_decide || case_match); simplify_eq/=; eauto.
Qed.

(** X6.  A rule whose expressions all have a value renders without throwing and
    without calling anything, on the rules context or on the debounced
    function, whatever the metadata, the fetched collections and the hook
    state. *)
Theorem render_with_values_calls_nothing componentId readonly rule meta t fetch uiState :
  (forall condition expression,
     condition ∈ rule_rules rule ->
     expression ∈ cond_expressions condition ->
     expr_value expression <> EmptyString) ->
  exists view,
    RuleConditions componentId readonly rule meta t fetch uiState = ([], Some view).
Proof.
  intros Hvalues. unfold RuleConditions, mapM_idx.
  destruct (mapM_from_silent
              (renderCondition readonly rule meta t fetch uiState) (rule_rules rule))
    with (i := 0%nat) as [children Hchildren].
  - intros condition index Hcond. unfold renderCondition.
    case_bool_decide; [|eexists; reflexivity].
    case_bool_decide; [|eexists; reflexivity].
    unfold mapM_idx.
    destruct (mapM_from_silent
                (fun expression exprIndex =>
                   RuleExpression readonly meta t fetch expression (rule_id rule)
                     (cond_id condition) exprIndex
                     (bool_decide (1 < length (cond_expressions condition))%nat
                      || bool_decide (1 < length (rule_rules rule))%nat)
                     (uiState index exprIndex))
                (cond_expressions condition)) with (i := 0%nat) as [rows Hrows].
    + intros expression exprIndex Hexpr. unfold RuleExpression.
      edestruct ConditionValueInput_with_value as [input ->];
        [exact (Hvalues _ _ Hcond Hexpr)|].
      eexists. reflexivity.
    + rewrite Hrows. eexists. reflexivity.
  - rewrite Hchildren. eexists. reflexivity.
Qed.

Lemma render_with_values_calls_nothing_two_conditions :
  exists view, Sample.render (Some true) Sample.twoConditions = ([], Some view).
Proof.
  apply (render_with_values_calls_nothing None (Some true) Sample.twoConditions
           Sample.meta Sample.t Sample.useGetResourceList Sample.uiState).
  intros condition expression Hcond Hexpr.
  repeat (apply elem_of_cons in Hcond as [->|Hcond];
          [repeat (apply elem_of_cons in Hexpr as [->|Hexpr]; [discriminate|]);
           apply elem_of_nil in Hexpr; contradiction|]).
  apply elem_of_nil in Hcond. contradiction.
Defined.

(** ** Calls made while rendering *)

Lemma sameCalls_bind {A A' B B'} (m : Render A) (m' : Render A')
    (k : A -> Render B) (k' : A' -> Render B') :
  sameCalls m m' ->
  (forall a a', sameCalls (k a) (k' a')) ->
  sameCalls (bind m k) (bind m' k').
Proof.
  unfold sameCalls, bind. intros [Hcalls Hsome] Hk.
  destruct m as [c [a|]], m' as [c' [a'|]]; simpl in *; subst.
  - specialize (Hk a a'). destruct (k a), (k' a'); simpl in *.
    destruct Hk as [-> Hk]. split; [reflexivity | exact Hk].
  - destruct Hsome as [Hsome _]. destruct Hsome as [? [=]]. eauto.
  - destruct Hsome as [_ Hsome]. destruct Hsome as [? [=]]. eauto.
  - split; [reflexivity|]. split; intros [? [=]].
Qed.

Lemma sameCalls_ret {B C} (b : B) (c : C) : sameCalls (ret b) (ret c).
Proof. split; [reflexivity|]. split; intros _; eexists; reflexivity. Qed.

Lemma sameCalls_mapM_from {A B C} (f : A -> nat -> Render B) (g : A -> nat -> Render C) xs :
  (forall x i, sameCalls (f x i) (g x i)) ->
  forall i, sameCalls (mapM_from f i xs) (mapM_from g i xs).
Proof.
  intros Hfg. induction xs as [|x xs IH]; intros i; simpl.
  - apply sameCalls_ret.
  - apply sameCalls_bind; [apply Hfg|]. intros y y'.
    apply sameCalls_bind; [apply IH|]. intros ys ys'. apply sameCalls_ret.
Qed.

Lemma sameCalls_ConditionValueInput readonly readonly' t t' fetch findMeta rule condition
    field expression value metaValue st st' :
  sameCalls
    (ConditionValueInput readonly t fetch findMeta rule condition field expression value
       metaValue st)
    (ConditionValueInput readonly' t' fetch findMeta rule condition field expression value
       metaValue st').
Proof.
  unfold ConditionValueInput, ResourceListSelect, ValueInputAutocomplete, bind, perform,
    throw, ret, sameCalls.
  repeat (case_bool_decide || case_match); simplify_eq/=;
    (split; [reflexivity|]); split;
    first [ intros _; eexists; reflexivity | intros [? [=]] ].
Qed.

(** X7.  The calls a render makes, and whether it throws, depend on the rule,
    the metadata and the fetched collections only: not on [readonly], nor on
    the component id, the translations or the hook state.  A read-only
    editor makes the same automatic selections as an editable one. *)
Theorem render_calls_ignore_readonly componentId componentId' readonly readonly'
    rule meta t t' fetch uiState uiState' :
  sameCalls (RuleConditions componentId readonly rule meta t fetch uiState)
            (RuleConditions componentId' readonly' rule meta t' fetch uiState').
Proof.
  unfold RuleConditions, mapM_idx.
  apply sameCalls_bind; [|intros; apply sameCalls_ret].
  apply sameCalls_mapM_from. intros condition index. unfold renderCondition.
  case_bool_decide; [|apply sameCalls_ret].
  apply sameCalls_bind; [|intros; apply sameCalls_ret].
  case_bool_decide; [|apply sameCalls_ret].
  apply sameCalls_bind; [|intros; apply sameCalls_ret].
  apply sameCalls_mapM_from. intros expression exprIndex. unfold RuleExpression.
  apply sameCalls_bind; [|intros; apply sameCalls_ret].
  apply sameCalls_ConditionValueInput.
Qed.

(** The read-only render of two rows without a value calls the debounced
    function for both. *)
Example readonly_render_auto_selects :
  (Sample.render (Some true) Sample.twoGrantTypes).1
  = [ CallDebounced
        {| changedValue := Some "authorization_code"; ruleId := "r"; conditionId := "c1";
           expressionId := "e1"; fieldName := Value; isUserOnChange := false |};
      CallDebounced
        {| changedValue := Some "authorization_code"; ruleId := "r"; conditionId := "c1";
           expressionId := "e2"; fieldName := Value; isUserOnChange := false |} ].
Proof. reflexivity. Qed.

(** ** The rendered tree *)

Lemma RuleConditions_children componentId readonly rule meta t fetch uiState calls view :
  RuleConditions componentId readonly rule meta t fetch uiState = (calls, Some view) ->
  length (root_children view) = length (rule_rules rule) /\
  forall i condition,
    rule_rules rule !! i = Some condition ->
    exists a child,
      renderCondition readonly rule meta t fetch uiState condition i = (a, Some child) /\
      root_children view !! i = Some child.
Proof.
  unfold RuleConditions, mapM_idx. intros H.
  apply bind_Some in H as (a1 & children & a2 & Hc & H & _).
  injection H as _ <-. simpl.
  destruct (mapM_from_complete _ _ _ _ _ Hc) as [Hlen Hall].
  split; [exact Hlen|]. intros i condition Hi.
  destruct (Hall _ _ Hi) as (a & child & Hr & Hchild). eauto.
Qed.

(** X8.  An OR rule renders one block per condition, in order; the block of an
    AND condition holds one row per expression, in order, and the row shows
    the field and the operator of its expression and the warning of its own
    hook state. *)
Theorem rows_mirror_expressions componentId readonly rule meta t fetch uiState
    calls view i condition :
  RuleConditions componentId readonly rule meta t fetch uiState = (calls, Some view) ->
  rule_condition rule = Or ->
  rule_rules rule !! i = Some condition ->
  cond_condition condition = And ->
  length (root_children view) = length (rule_rules rule) /\
  exists block rows,
    root_children view !! i = Some (Some block) /\
    frag_key block = i /\
    frag_expressions block = Some rows /\
    length rows = length (cond_expressions condition) /\
    forall j expression,
      cond_expressions condition !! j = Some expression ->
      exists row,
        rows !! j = Some row /\
        box_key row = j /\
        sel_value (box_fieldSelect row) = expr_field expression /\
        sel_value (box_operatorSelect row) = expr_operator expression /\
        box_alert row = isResourceMissing (uiState i j).
Proof.
  intros Hview Hor Hcond Hand.
  destruct (RuleConditions_children _ _ _ _ _ _ _ _ _ Hview) as [Hlen Hall].
  split; [exact Hlen|].
  destruct (Hall _ _ Hcond) as (a & child & Hr & Hchild).
  unfold renderCondition in Hr.
  rewrite (bool_decide_eq_true_2 _ Hor), (bool_decide_eq_true_2 _ Hand) in Hr.
  apply bind_Some in Hr as (a1 & expressions & a2 & He & Hr & _).
  injection Hr as _ <-.
  apply bind_Some in He as (a3 & rows & a4 & Hrows & He & _).
  injection He as _ <-.
  unfold mapM_idx in Hrows.
  destruct (mapM_from_complete _ _ _ _ _ Hrows) as [Hrlen Hrall].
  eexists _, rows. split; [exact Hchild|]. simpl.
  split; [reflexivity|]. split; [reflexivity|]. split; [exact Hrlen|].
  intros j expression Hj.
  destruct (Hrall _ _ Hj) as (a5 & row & Hrow & Hrj). simpl in Hrow.
  pose proof (RuleExpression_row _ _ _ _ _ _ _ _ _ _ _ _ Hrow)
    as (_ & Hkey & Halert & Hfield & Hop & _).
  exists row. auto.
Qed.

Lemma rows_mirror_expressions_two_notes :
  length (rule_rules Sample.twoNotes) = 1%nat /\
  exists view block rows,
    Sample.render None Sample.twoNotes = ([], Some view) /\
    root_children view !! 0%nat = Some (Some block) /\
    frag_expressions block = Some rows /\
    length rows = 2%nat.
Proof.
  split; [reflexivity|].
  destruct (rows_mirror_expressions None None Sample.twoNotes Sample.meta Sample.t
              Sample.useGetResourceList Sample.uiState []
              (default {| root_componentId := EmptyString; root_children := [] |}
                 (Sample.render None Sample.twoNotes).2)
              0%nat
              {| cond_id := "c1"; cond_condition := And;
                 cond_expressions := [ Sample.expression "e1" "note" EmptyString;
                                       Sample.expression "e2" "note" EmptyString ] |})
    as (_ & block & rows & Hblock & _ & Hrows & Hlen & _).
  - reflexivity.
  - reflexivity.
  - reflexivity.
  - reflexivity.
  - eexists. exists block, rows. split; [reflexivity|].
    split; [exact Hblock|]. split; [exact Hrows | exact Hlen].
Defined.

(** X9.  Every block of an OR rule carries the "or" button exactly when its
    condition has an expression, whatever the operator of the condition; a
    condition that is not an AND renders no rows.  The button asks for a
    new expression of the condition joined by OR, after no expression. *)
Theorem or_button_iff_expressions componentId readonly rule meta t fetch uiState
    calls view i condition :
  RuleConditions componentId readonly rule meta t fetch uiState = (calls, Some view) ->
  rule_condition rule = Or ->
  rule_rules rule !! i = Some condition ->
  exists block,
    root_children view !! i = Some (Some block) /\
    (cond_condition condition <> And -> frag_expressions block = None) /\
    (cond_expressions condition = [] -> frag_orButton block = None) /\
    (cond_expressions condition <> [] ->
     frag_orButton block =
       Some {| btn_disabled := readonly;
               btn_label := t "rules:buttons.or";
               btn_onClick :=
                 [Call (addNewRuleConditionExpression (rule_id rule) (cond_id condition)
                          Or None)] |}).
Proof.
  intros Hview Hor Hcond.
  destruct (RuleConditions_children _ _ _ _ _ _ _ _ _ Hview) as [_ Hall].
  destruct (Hall _ _ Hcond) as (a & child & Hr & Hchild).
  unfold renderCondition in Hr. rewrite (bool_decide_eq_true_2 _ Hor) in Hr.
  apply bind_Some in Hr as (a1 & expressions & a2 & He & Hr & _).
  injection Hr as _ <-. eexists. split; [exact Hchild|]. simpl. repeat split.
  - intros Hnot. rewrite (bool_decide_eq_false_2 _ Hnot) in He.
    injection He as _ <-. reflexivity.
  - intros ->. reflexivity.
  - intros Hne. destruct (cond_expressions condition); [contradiction|]. 
    rewrite bool_decide_eq_true_2 by (simpl; lia). reflexivity.
Qed.

Lemma or_button_iff_expressions_single :
  exists view block,
    Sample.render None Sample.single = ([], Some view) /\
    root_children view !! 0%nat = Some (Some block) /\
    is_Some (frag_orButton block).
Proof.
  destruct (or_button_iff_expressions None None Sample.single Sample.meta Sample.t
              Sample.useGetResourceList Sample.uiState []
              (default {| root_componentId := EmptyString; root_children := [] |}
                 (Sample.render None Sample.single).2)
              0%nat
              {| cond_id := "c1"; cond_condition := And;
                 cond_expressions := [ Sample.expression "e1" "grantType" "password" ] |})
    as (block & Hblock & _ & _ & Hbutton).
  - reflexivity.
  - reflexivity.
  - reflexivity.
  - eexists. exists block. split; [reflexivity|]. split; [exact Hblock|].
    rewrite Hbutton by discriminate. eexists. reflexivity.
Defined.

(** ** Value inputs *)




(** X11.  A value-shape that is neither free text nor a fixed list, or a fixed
    list with at most one option and without both a "values" and a "filter"
    link among at least two links, renders no value input and calls
    nothing, also for an expression without a value. *)
Theorem value_input_absent readonly t fetch findMeta rule condition field expression
    value metaValue st :
  inputType metaValue <> "input" ->
  (inputType metaValue = "options" ->
   length_gt_1 (values metaValue) = false /\
   (length_gt_1 (links metaValue) = false \/
    truthy_str (links metaValue ≫= linkHref "values") = false \/
    truthy_str (links metaValue ≫= linkHref "filter") = false)) ->
  ConditionValueInput readonly t fetch findMeta rule condition field expression value
    (Some metaValue) st = ([], Some None).
Proof.
  intros Hinput Hoptions. unfold ConditionValueInput.
  cbn [mbind option_bind fmap option_fmap option_map].
  rewrite bool_decide_eq_false_2 by congruence.
  case_bool_decide as Htype; [|reflexivity].
  injection Htype as Htype. destruct (Hoptions Htype) as [-> Hlinks].
  destruct (length_gt_1 (links metaValue)) eqn:Hlen; [|reflexivity].
  destruct Hlinks as [[=]|Hlinks].
  destruct (links metaValue ≫= linkHref "values") as [initialUrl|],
           (links metaValue ≫= linkHref "filter") as [filterBaseUrl|];
    try reflexivity.
  destruct Hlinks as [->| ->]; [reflexivity|]. rewrite andb_false_r. reflexivity.
Qed.

Lemma value_input_absent_single_option :
  ConditionValueInput None Sample.t Sample.useGetResourceList None "r" "c1" "tenant" "e1"
    EmptyString
    (Some {| inputType := "options"; valueReferenceAttribute := None;
             valueDisplayAttribute := None;
             values := Some [ {| ld_name := "carbon.super"; ld_displayName := "Super" |} ];
             links := Some [ {| link_href := "/tenants"; link_rel := "values" |} ] |})
    initialState = ([], Some None).
Proof.
  apply value_input_absent.
  - discriminate.
  - intros _. split; [reflexivity|]. left. reflexivity.
Defined.

(** X12.  A resource-reference value-shape renders nothing and selects nothing
    until its collection has been fetched. *)
Theorem resource_input_waits_for_collection readonly t fetch findMeta rule condition
    field expression value metaValue initialUrl filterBaseUrl st :
  inputType metaValue = "options" ->
  length_gt_1 (values metaValue) = false ->
  length_gt_1 (links metaValue) = true ->
  links metaValue ≫= linkHref "values" = Some initialUrl ->
  links metaValue ≫= linkHref "filter" = Some filterBaseUrl ->
  data (fetch initialUrl) = None ->
  ConditionValueInput readonly t fetch findMeta rule condition field expression value
    (Some metaValue) st = ([], Some None).
Proof.
  intros Htype Hvalues Hlinks Hinitial Hfilter Hdata.
  unfold ConditionValueInput.
  cbn [mbind option_bind fmap option_fmap option_map].
  rewrite Htype, Hvalues, Hlinks, Hinitial, Hfilter.
  rewrite bool_decide_eq_false_2 by discriminate.
  rewrite bool_decide_eq_true_2 by reflexivity.
  destruct (truthy_str (Some initialUrl) && truthy_str (Some filterBaseUrl));
    [|reflexivity].
  unfold ResourceListSelect. rewrite Hdata. reflexivity.
Qed.

Lemma resource_input_waits_for_collection_loading :
  ConditionValueInput None Sample.t (fun _ => Sample.loading) (Some Sample.application)
    "r" "c1" "application" "e1" EmptyString (meta_value Sample.application) initialState
  = ([], Some None).
Proof.
  apply (resource_input_waits_for_collection None Sample.t (fun _ => Sample.loading)
           (Some Sample.application) "r" "c1" "application" "e1" EmptyString _
           "/applications?limit=2" "/applications?filter=&limit=2" initialState).
  - reflexivity.
  - reflexivity.
  - reflexivity.
  - reflexivity.
  - reflexivity.
  - reflexivity.
Defined.

(** X13.  For an expression without a value, once the collection is fetched and
    holds an array under the resource type, [ResourceListSelect] calls the
    debounced function once, with the [id] attribute of the first resource
    whatever reference attribute the metadata names, with [undefined] when
    the array is empty, and with the user-initiated flag [false]; then it
    renders its input. *)
Theorem resource_auto_selection readonly t fetch rule condition expression field findMeta
    initialUrl filterBaseUrl st fetched resources :
  data (fetch initialUrl) = Some fetched ->
  collections fetched !! interpolate (resourceTypeOf field) = Some resources ->
  exists input,
    ResourceListSelect readonly t fetch rule condition EmptyString expression field
      findMeta initialUrl filterBaseUrl st
    = ([ CallDebounced
           {| changedValue := head resources ≫= (fun r : ResourceInterface => r !! "id");
              ruleId := rule; conditionId := condition; expressionId := expression;
              fieldName := Value; isUserOnChange := false |} ],
       Some (Some input)).
Proof.
  intros Hdata Hresources. unfold ResourceListSelect. rewrite Hdata, Hresources.
  simpl. destruct (js_gt _ _); eexists; reflexivity.
Qed.

Lemma resource_auto_selection_empty_collection :
  let fetch (url : string) :=
    Sample.loaded {| totalResults := Some 0%Z; count := Some 0%Z;
                     collections := {[ "applications" := [] ]} |} in
  exists input,
    ResourceListSelect None Sample.t fetch "r" "c1" EmptyString "e1" "application"
      (Some Sample.application) "/applications?limit=2" "/applications?filter=&limit=2"
      initialState
    = ([ CallDebounced
           {| changedValue := None; ruleId := "r"; conditionId := "c1";
              expressionId := "e1"; fieldName := Value; isUserOnChange := false |} ],
       Some (Some input)).
Proof.
  intros fetch.
  apply (resource_auto_selection None Sample.t fetch "r" "c1" "e1" "application"
           (Some Sample.application) "/applications?limit=2"
           "/applications?filter=&limit=2" initialState
           {| totalResults := Some 0%Z; count := Some 0%Z;
              collections := {[ "applications" := [] ]} |} []).
  - reflexivity.
  - reflexivity.
Defined.

(** ** The two resource inputs *)

Lemma ResourceListSelect_input readonly t fetch rule condition value expression field
    findMeta initialUrl filterBaseUrl st calls input :
  ResourceListSelect readonly t fetch rule condition value expression field findMeta
    initialUrl filterBaseUrl st = (calls, Some (Some input)) ->
  exists fetched,
    data (fetch initialUrl) = Some fetched /\
    if js_gt (totalResults fetched) (count fetched)
    then exists autocomplete,
           input = VAutocomplete autocomplete /\
           forall option,
             opt_isDisabled option = false ->
             ac_onChange autocomplete (Some option)
             = [ CallDebounced
                   {| changedValue := opt_id option; ruleId := rule;
                      conditionId := condition; expressionId := expression;
                      fieldName := Value; isUserOnChange := true |} ]
    else exists select,
           input = VSelect select /\
           forall v,
             sel_onChange select v
             = [ Call (updateConditionExpression
                         {| changedValue := Some v; ruleId := rule;
                            conditionId := condition; expressionId := expression;
                            fieldName := Value; isUserOnChange := true |}) ].
Proof.
  unfold ResourceListSelect, ValueInputAutocomplete, bind, perform, throw, ret,
    handleExpressionChangeDebounced, callUpdateConditionExpression.
  intros H. destruct (data (fetch initialUrl)) as [fetched|]; [|discriminate].
  exists fetched. split; [reflexivity|].
  destruct (js_gt (totalResults fetched) (count fetched));
    repeat (case_bool_decide || case_match); simplify_eq/=;
    eexists; (split; [reflexivity|]); simpl; intros; try reflexivity.
  all: match goal with H : opt_isDisabled _ = false |- _ => rewrite H end; reflexivity.
Qed.

(** X14.  The two resource inputs differ in when a selection reaches the rules
    context.  A selection in the dropdown (the collection fits one page) is
    dispatched at once; a selection in the autocomplete (the collection is
    paged) goes through the debounced function and is dispatched 300
    later. *)
Theorem resource_selection_timing readonly t fetch rule condition value expression field
    findMeta initialUrl filterBaseUrl st calls input now :
  ResourceListSelect readonly t fetch rule condition value expression field findMeta
    initialUrl filterBaseUrl st = (calls, Some (Some input)) ->
  match input with
  | VSelect select =>
      forall v,
        dispatched [(now, sel_onChange select v)] now
        = [ (now, updateConditionExpression
                    {| changedValue := Some v; ruleId := rule; conditionId := condition;
                       expressionId := expression; fieldName := Value;
                       isUserOnChange := true |}) ]
  | VAutocomplete autocomplete =>
      forall option later,
        opt_isDisabled option = false ->
        dispatched [(now, ac_onChange autocomplete (Some option))] later
        = if (now + 300 <=? later)%Z
          then [ ((now + 300)%Z,
                  updateConditionExpression
                    {| changedValue := opt_id option; ruleId := rule;
                       conditionId := condition; expressionId := expression;
                       fieldName := Value; isUserOnChange := true |}) ]
          else []
  | VTextField _ => False
  end.
Proof.
  intros H. destruct (ResourceListSelect_input _ _ _ _ _ _ _ _ _ _ _ _ _ _ H)
    as (fetched & _ & Hinput).
  destruct (js_gt _ _).
  - destruct Hinput as (autocomplete & -> & Hchange).
    intros option later Henabled. rewrite (Hchange _ Henabled), dispatched_one_debounced.
    destruct (Z.leb_spec (now + 300) later).
    + rewrite expire_due by assumption. reflexivity.
    + rewrite expire_early by assumption. reflexivity.
  - destruct Hinput as (select & -> & Hchange). intros v. rewrite Hchange. reflexivity.
Qed.

Lemma resource_selection_timing_paged_applications :
  exists autocomplete,
    ResourceListSelect None Sample.t Sample.useGetResourceList "r" "c1" "a1" "e1"
      "application" (Some Sample.application) "/applications?limit=2"
      "/applications?filter=&limit=2" initialState
    = ([], Some (Some (VAutocomplete autocomplete))) /\
    forall option later,
      opt_isDisabled option = false ->
      dispatched [(0%Z, ac_onChange autocomplete (Some option))] later
      = if (0 + 300 <=? later)%Z
        then [ ((0 + 300)%Z,
                updateConditionExpression
                  {| changedValue := opt_id option; ruleId := "r"; conditionId := "c1";
                     expressionId := "e1"; fieldName := Value; isUserOnChange := true |}) ]
        else [].
Proof.
  eexists. split; [reflexivity|].
  eapply (resource_selection_timing None Sample.t Sample.useGetResourceList "r" "c1" "a1"
            "e1" "application" (Some Sample.application) "/applications?limit=2"
            "/applications?filter=&limit=2" initialState [] (VAutocomplete _) 0%Z).
  reflexivity.
Defined.

(** ** A pending edit and a change of field *)

Lemma ConditionValueInput_textField readonly t fetch findMeta rule condition field
    expression value metaValue st calls input v :
  ConditionValueInput readonly t fetch findMeta rule condition field expression value
    metaValue st = (calls, Some (Some (VTextField input))) ->
  tf_onChange input v =
    [ CallDebounced
        {| changedValue := Some v; ruleId := rule; conditionId := condition;
           expressionId := expression; fieldName := Value; isUserOnChange := true |} ].
Proof.
  unfold ConditionValueInput, ResourceListSelect, ValueInputAutocomplete, bind, perform,
    throw, ret, handleExpressionChangeDebounced.
  intros H. repeat (case_bool_decide || case_match); simplify_eq/=; reflexivity.
Qed.

Lemma run_two_calls now c1 c2 pending :
  run [(now, [Call c1; Call c2])] pending
  = ((expire now pending).1, (expire now pending).2 ++ [(now, c1); (now, c2)]).
Proof. cbn [run]. destruct (expire now pending). reflexivity. Qed.

(** X3.  Selecting a field does not cancel a pending edit of the row's free-text
    value.  With a value typed at [t1] and a field selected less than 300
    later, the selection's two calls reach the context at once and the
    typed value reaches it after them, 300 after it was typed: the value
    just cleared is overwritten by the text typed for the former field. *)
Theorem pending_edit_lands_after_field_change componentId readonly rule meta t fetch
    uiState calls view i j row condition expression input typed selected t1 t2 now :
  RuleConditions componentId readonly rule meta t fetch uiState = (calls, Some view) ->
  rowAt view i j row ->
  rule_rules rule !! i = Some condition ->
  cond_expressions condition !! j = Some expression ->
  box_valueInput row = Some (VTextField input) ->
  (t1 <= t2)%Z -> (t2 < t1 + 300)%Z -> (t1 + 300 <= now)%Z ->
  let update v fieldName :=
    updateConditionExpression
      {| changedValue := Some v; ruleId := rule_id rule; conditionId := cond_id condition;
         expressionId := expr_id expression; fieldName := fieldName;
         isUserOnChange := true |} in
  dispatched [ (t1, tf_onChange input typed);
               (t2, sel_onChange (box_fieldSelect row) selected) ] now
  = [ (t2, update selected Field);
      (t2, update EmptyString Value);
      ((t1 + 300)%Z, update typed Value) ].
Proof.
  intros Hview Hrow Hcond Hexpr Hinput H12 H21 Hnow update.
  destruct (rowAt_RuleExpression _ _ _ _ _ _ _ _ _ _ _ _ Hview Hrow)
    as (condition' & expression' & a & Hcond' & Hexpr' & _ & _ & Hr).
  rewrite Hcond in Hcond'. injection Hcond' as <-.
  rewrite Hexpr in Hexpr'. injection Hexpr' as <-.
  pose proof (RuleExpression_row _ _ _ _ _ _ _ _ _ _ _ _ Hr) as (Hv & _).
  rewrite Hinput in Hv.
  rewrite (ConditionValueInput_textField _ _ _ _ _ _ _ _ _ _ _ _ _ typed Hv).
  rewrite (RuleExpression_fieldSelect _ _ _ _ _ _ _ _ _ _ _ _ selected Hr).
  unfold dispatched, callUpdateConditionExpression.
  rewrite run_debounced, run_two_calls, expire_None, expire_early by exact H21.
  cbn [fst snd app]. rewrite expire_due by exact Hnow. reflexivity.
Qed.

Lemma pending_edit_lands_after_field_change_note :
  exists view row input,
    Sample.render None Sample.twoConditions = ([], Some view) /\
    rowAt view 1 0 row /\
    box_valueInput row = Some (VTextField input) /\
    let update v fieldName :=
      updateConditionExpression
        {| changedValue := Some v; ruleId := "r"; conditionId := "c2";
           expressionId := "e2"; fieldName := fieldName; isUserOnChange := true |} in
    dispatched [ (0%Z, tf_onChange input "draft");
                 (100%Z, sel_onChange (box_fieldSelect row) "grantType") ] 300
    = [ (100%Z, update "grantType" Field);
        (100%Z, update EmptyString Value);
        ((0 + 300)%Z, update "draft" Value) ].
Proof.
  eexists _, _, _. split; [reflexivity|]. split.
  { eexists _, _. repeat split; reflexivity. }
  split; [reflexivity|].
  eapply (pending_edit_lands_after_field_change None None Sample.twoConditions Sample.meta
            Sample.t Sample.useGetResourceList Sample.uiState [] _ 1 0 _
            {| cond_id := "c2"; cond_condition := And;
               cond_expressions := [ Sample.expression "e2" "note" "x" ] |}
            (Sample.expression "e2" "note" "x") _ "draft" "grantType" 0%Z 100%Z 300%Z).
  - reflexivity.
  - eexists _, _. repeat split; reflexivity.
  - reflexivity.
  - reflexivity.
  - reflexivity.
  - lia.
  - lia.
  - lia.
Defined.

(** ** The warning of a row *)

Lemma setStates_keepsWarning actions :
  Forall keepsWarning actions ->
  forall st, isResourceMissing (setStates actions st) = isResourceMissing st.
Proof.
  unfold setStates. induction 1 as [|a actions Ha _ IH]; intros st; [reflexivity|].
  simpl. rewrite IH. destruct a; simpl in *; reflexivity || contradiction.
Qed.

Lemma ConditionValueInput_keepsWarning readonly t fetch findMeta rule condition field
    expression value metaValue st calls input actions :
  ConditionValueInput readonly t fetch findMeta rule condition field expression
    value metaValue st = (calls, Some (Some input)) ->
  valueInputHandler input actions ->
  Forall keepsWarning actions.
Proof.
  unfold ConditionValueInput, ResourceListSelect, ValueInputAutocomplete, bind, perform,
    throw, ret, handleExpressionChangeDebounced, callUpdateConditionExpression.
  intros H Hh.
  repeat (case_bool_decide || case_match); simplify_eq/=;
    inversion Hh; subst; simpl; repeat case_match; repeat constructor.
Qed.

(** X15.  While a row stays mounted, no action of the component sets the
    "resource missing" flag back to false: applied to a hook state with the
    flag set, the actions of the lookup effect (whatever the lookup
    returns, a later success included), of the effects of the autocomplete
    and of every handler of the row leave it set.  The flag starts from
    false again only when the row is mounted anew, on a render of
    [RuleConditions]. *)
Theorem no_action_clears_warning st :
  isResourceMissing st = true ->
  (forall useGetResourceDetails prev field value,
     isResourceMissing
       (setStates (ResourceListSelect_effectOf useGetResourceDetails prev field value) st)
     = true) /\
  (forall fetch reference display resourceType initialUrl filterBaseUrl details,
     isResourceMissing
       (setStates (ValueInputAutocomplete_onResourceDetails reference display details) st)
     = true /\
     isResourceMissing
       (setStates
          (ValueInputAutocomplete_onResources fetch reference display resourceType
             initialUrl filterBaseUrl st) st)
     = true) /\
  (forall componentId readonly rule meta t fetch uiState calls view i j row actions,
     RuleConditions componentId readonly rule meta t fetch uiState = (calls, Some view) ->
     rowAt view i j row ->
     rowHandler row actions ->
     isResourceMissing (setStates actions st) = true).
Proof.
  intros Hset. split; [|split].
  - intros useGetResourceDetails prev field value.
    unfold ResourceListSelect_effectOf, ResourceListSelect_effect, useEffect,
      ResourceListSelect_onResourceDetails.
    repeat case_match; simpl; try exact Hset; reflexivity.
  - intros fetch reference display resourceType initialUrl filterBaseUrl details.
    unfold ValueInputAutocomplete_onResourceDetails, ValueInputAutocomplete_onResources.
    split; repeat case_match; simpl; exact Hset.
  - intros componentId readonly rule meta t fetch uiState calls view i j row actions
      Hview Hrow Hh.
    rewrite setStates_keepsWarning; [exact Hset|].
    destruct (rowAt_RuleExpression _ _ _ _ _ _ _ _ _ _ _ _ Hview Hrow)
      as (condition & expression & a & _ & _ & _ & _ & Hr).
    pose proof (RuleExpression_row _ _ _ _ _ _ _ _ _ _ _ _ Hr)
      as (Hv & _ & _ & _ & _ & _ & _ & _ & _ & Hop & Hand).
    destruct Hh as [v|v|input actions Hinput Hh| |fab Hfab].
    + rewrite (RuleExpression_fieldSelect _ _ _ _ _ _ _ _ _ _ _ _ v Hr).
      repeat constructor.
    + rewrite Hop. repeat constructor.
    + rewrite Hinput in Hv.
      exact (ConditionValueInput_keepsWarning _ _ _ _ _ _ _ _ _ _ _ _ _ _ Hv Hh).
    + rewrite Hand. repeat constructor.
    + rewrite (RuleExpression_removeFab _ _ _ _ _ _ _ _ _ _ _ _ Hr) in Hfab.
      destruct (_ && _); [|discriminate]. injection Hfab as <-. repeat constructor.
Qed.

(** The lookup of ["a9"] failed and set the flag; the same lookup, fetched
    again while the row is mounted, now succeeds: the flag is still set. *)
Lemma no_action_clears_warning_after_refetch :
  let missing := setStates [SetIsResourceMissing true; SetResourceDetails None] initialState in
  let found (url : string) := Sample.loaded (Sample.resourceOf "a9" "App nine") in
  isResourceMissing
    (setStates (ResourceListSelect_effectOf found (Some (false, Some "404"))
                  "application" "a9") missing)
  = true.
Proof.
  intros missing found.
  apply (no_action_clears_warning missing).
  reflexivity.
Defined.

(** ** The filter URL *)

Lemma replaceAfter_absent pat by_ s :
  forall before, occurs pat s = false -> replaceAfter before pat by_ s = s.
Proof.
  induction s as [|c s IH]; intros before H; cbn [occurs] in H;
    apply orb_false_iff in H as [Hhere H]; cbn [replaceAfter]; rewrite Hhere.
  - reflexivity.
  - rewrite (IH _ H). reflexivity.
Qed.

Lemma replace_absent pat by_ s : occurs pat s = false -> replace pat by_ s = s.
Proof. apply replaceAfter_absent. Qed.

Lemma append_String c (a b : string) : String c a +:+ b = String c (a +:+ b).
Proof. reflexivity. Qed.

Lemma append_Empty (b : string) : EmptyString +:+ b = b.
Proof. reflexivity. Qed.

Lemma append_assoc (a b c : string) : (a +:+ b) +:+ c = a +:+ (b +:+ c).
Proof.
  induction a as [|x a IH]; [reflexivity|].
  rewrite !append_String, IH. reflexivity.
Qed.

Lemma length_append (a b : string) :
  String.length (a +:+ b) = (String.length a + String.length b)%nat.
Proof.
  induction a as [|x a IH]; [reflexivity|].
  rewrite append_String. simpl. rewrite IH. reflexivity.
Qed.

Lemma prefix_Empty (a : string) : String.prefix EmptyString a = true.
Proof. destruct a; reflexivity. Qed.

(** Whether [pat] starts a string depends on as many characters only as
    [pat] has. *)
Lemma prefix_append pat : forall a b,
  (String.length pat <= String.length a)%nat ->
  String.prefix pat (a +:+ b) = String.prefix pat a.
Proof.
  induction pat as [|c pat IH]; intros a b Hlen.
  { rewrite !prefix_Empty. reflexivity. }
  destruct a as [|d a]; simpl in Hlen; [lia|].
  rewrite append_String. simpl.
  destruct (Ascii.ascii_dec c d); [apply IH; lia | reflexivity].
Qed.

Lemma prefix_append_self pat b : String.prefix pat (pat +:+ b) = true.
Proof.
  induction pat as [|c pat IH]; [destruct b; reflexivity|].
  rewrite append_String. simpl.
  destruct (Ascii.ascii_dec c c); [exact IH | contradiction].
Qed.

Lemma substring_all b : String.substring 0 (String.length b) b = b.
Proof. induction b as [|d b IH]; simpl; [reflexivity | rewrite IH; reflexivity]. Qed.

Lemma substring_after a b :
  String.substring (String.length a) (String.length (a +:+ b) - String.length a) (a +:+ b)
  = b.
Proof.
  induction a as [|c a IH].
  - rewrite append_Empty. simpl String.length at 1 3. rewrite Nat.sub_0_r.
    apply substring_all.
  - rewrite append_String. exact IH.
Qed.

Lemma append_Empty_r (a : string) : a +:+ EmptyString = a.
Proof.
  induction a as [|x a IH]; [reflexivity|]. rewrite append_String, IH. reflexivity.
Qed.

(** A replacement text without a dollar sign is inserted as it is. *)
Lemma substitute_plain matched before after replacement :
  occurs "$" replacement = false ->
  substitute matched before after replacement = replacement.
Proof.
  induction replacement as [|c tail IH]; intros H; [reflexivity|].
  cbn [occurs] in H. apply orb_false_iff in H as [Hhere Hlater].
  assert (c <> "$"%char) as Hc.
  { intros ->. simpl in Hhere. rewrite prefix_Empty in Hhere. discriminate. }
  cbn [substitute]. destruct tail as [|d rest]; [reflexivity|].
  rewrite (bool_decide_eq_false_2 _ Hc), (IH Hlater). reflexivity.
Qed.

(** The first occurrence is the one replaced: with no occurrence of [pat]
    that starts within [pre], [pat] after [pre] is replaced by the expanded
    replacement text and the rest is kept. *)
Lemma replaceAfter_first init last by_ pre post :
  let pat := init +:+ String last EmptyString in
  forall before,
    occurs pat (pre +:+ init) = false ->
    replaceAfter before pat by_ (pre +:+ (pat +:+ post))
    = pre +:+ (substitute pat (before +:+ pre) post by_ +:+ post).
Proof.
  intros pat. induction pre as [|c pre IH]; intros before Hearlier.
  - rewrite !append_Empty, append_Empty_r. destruct (pat +:+ post) as [|d rest] eqn:Hs.
    + destruct init; discriminate.
    + cbn [replaceAfter]. rewrite <- Hs, prefix_append_self, substring_after. reflexivity.
  - rewrite !append_String in *. cbn [occurs] in Hearlier.
    apply orb_false_iff in Hearlier as [Hhere Hlater]. cbn [replaceAfter].
    assert (String.prefix pat (String c (pre +:+ (pat +:+ post))) = false) as ->.
    { unfold pat at 2. rewrite append_assoc, <- append_assoc, <- append_String.
      rewrite prefix_append; [exact Hhere|].
      unfold pat. simpl. rewrite !length_append. simpl. lia. }
    rewrite (IH _ Hlater), append_assoc, append_String, append_Empty. reflexivity.
Qed.

Lemma replace_first init last by_ pre post :
  let pat := init +:+ String last EmptyString in
  occurs pat (pre +:+ init) = false ->
  occurs "$" by_ = false ->
  replace pat by_ (pre +:+ (pat +:+ post)) = pre +:+ (by_ +:+ post).
Proof.
  intros pat Hearlier Hplain. unfold replace.
  etransitivity; [exact (replaceAfter_first init last by_ pre post EmptyString Hearlier)|].
  rewrite substitute_plain by exact Hplain. reflexivity.
Qed.

(** X16.  With input, the autocomplete fetches the filter link with the text
    ["filter="], at its first occurrence, completed to a starts-with filter
    on the name: the input, free of the character [$] that [replace] reads
    as a pattern, follows ["filter=name+sw+"] as it was typed. *)
Theorem filter_url_with_input label initialUrl pre post :
  label <> EmptyString ->
  occurs "$" label = false ->
  occurs "filter=" (pre +:+ "filter") = false ->
  filterUrl (Some label) initialUrl (pre +:+ ("filter=" +:+ post))
  = pre +:+ (("filter=name+sw+" +:+ label) +:+ post).
Proof.
  intros Hlabel Hplain Hearlier. unfold filterUrl, truthy_str.
  rewrite bool_decide_eq_false_2 by exact Hlabel. cbn [negb interpolate].
  assert (occurs "$" ("filter=name+sw+" +:+ label) = false) as Hby by exact Hplain.
  exact (replace_first "filter" "="%char ("filter=name+sw+" +:+ label) pre post
           Hearlier Hby).
Qed.

Lemma filter_url_with_input_applications :
  filterUrl (Some "my app") "/applications?limit=2" "/applications?filter=&limit=2"
  = "/applications?filter=name+sw+my app&limit=2".
Proof.
  apply (filter_url_with_input "my app" "/applications?limit=2" "/applications?"
           "&limit=2").
  - discriminate.
  - reflexivity.
  - reflexivity.
Defined.

(** An input with a pattern of [replace]: [$&] stands for the matched
    text. *)
Example filter_url_expands_dollar_patterns :
  filterUrl (Some "a$&b") "/applications?limit=2" "/applications?filter=&limit=2"
  = "/applications?filter=name+sw+afilter=b&limit=2" /\
  filterUrl (Some "a$$b") "/applications?limit=2" "/applications?filter=&limit=2"
  = "/applications?filter=name+sw+a$b&limit=2" /\
  filterUrl (Some "a$1b") "/applications?limit=2" "/applications?filter=&limit=2"
  = "/applications?filter=name+sw+a$1b&limit=2".
Proof. repeat split. Qed.

(** X17.  A filter link without the text ["filter="] is fetched as it is,
    whatever the input: the search then filters nothing. *)
Theorem filter_url_without_marker inputValueLabel initialUrl filterBaseUrl :
  truthy_str inputValueLabel = true ->
  occurs "filter=" filterBaseUrl = false ->
  filterUrl inputValueLabel initialUrl filterBaseUrl = filterBaseUrl.
Proof.
  unfold filterUrl. intros -> Habsent. apply replace_absent, Habsent.
Qed.

Lemma filter_url_without_marker_applications :
  filterUrl (Some "my app") "/applications?limit=2" "/applications?limit=2&offset=0"
  = "/applications?limit=2&offset=0".
Proof.
  apply (filter_url_without_marker (Some "my app") "/applications?limit=2"
           "/applications?limit=2&offset=0").
  - reflexivity.
  - reflexivity.
Defined.

(** ** The connector form *)

Lemma renderProperties_rows encode t testId formValues props :
  forall index rows,
    renderProperties encode t testId formValues index props = Some rows ->
    length rows = length props /\
    forall k property,
      props !! k = Some property ->
      exists row,
        renderProperty encode t testId formValues property (index + k) = Some row /\
        rows !! k = Some row.
Proof.
  induction props as [|property props IH]; simpl; intros index rows H.
  - injection H as <-. split; [reflexivity|]. intros k p Hk. destruct k; discriminate.
  - destruct (renderProperty encode t testId formValues property index) as [row|] eqn:Hrow;
      [|discriminate].
    destruct (renderProperties encode t testId formValues (S index) props) as [rest|] eqn:Hrest;
      [|discriminate].
    injection H as <-. destruct (IH _ _ Hrest) as [Hlen Hall].
    split; [simpl; rewrite Hlen; reflexivity|].
    intros [|k] p Hk; simpl in Hk.
    + injection Hk as <-. exists row. rewrite Nat.add_0_r. auto.
    + destruct (Hall _ _ Hk) as (r & Hr & Hrk). exists r.
      split; [|exact Hrk]. rewrite <- Hr. f_equal. lia.
Qed.

(** X18.  A rendered connector form has one row per property, in order, and each
    row holds exactly one field, named by the encoded property name, typed
    ["password"] for a secret and ["text"] otherwise, with the property's
    value as placeholder.  A property whose value is ["true"] or ["false"]
    gets a toggle in the narrow column, captioned by its display name and
    labelled enabled or disabled after the form's current value; any other
    property gets a required input in the wide column under its label. *)
Theorem connector_form_rows encode t i18n testId form props formState view :
  DynamicConnectorForm encode t i18n testId form (Some props) formState = Some view ->
  exists rows formOfStore,
    formState !! form = Some formOfStore /\
    cform_rows view = Some rows /\
    length rows = length props /\
    forall k property,
      props !! k = Some property ->
      exists row field,
        rows !! k = Some row /\
        prow_key row = k /\
        field_name field = encode (prop_name property) /\
        field_type field = getFieldType property /\
        field_placeholder field = prop_value property /\
        field_testid field = testId +:+ "-" +:+ prop_name property /\
        if isToggle property
        then prow_inputLabel row = None /\
             prow_control row = ToggleCaption (prop_displayName property) /\
             prow_toggle row = Some field /\
             field_component field = RenderToggle /\
             field_required field = false /\
             exists values,
               form_values formOfStore = Some values /\
               field_label field =
                 Some (if truthy_value (values !! encode (prop_name property))
                       then t "adminPortal:components.governanceConnectors.enabled"
                       else t "adminPortal:components.governanceConnectors.disabled")
        else prow_inputLabel row = Some (prop_name property, prop_displayName property) /\
             prow_control row = InputControl field /\
             prow_toggle row = None /\
             field_component field = RenderInput /\
             field_required field = true /\
             field_label field = None.
Proof.
  unfold DynamicConnectorForm. intros H.
  destruct (formState !! form) as [formOfStore|]; [|discriminate]. simpl in H.
  destruct (renderProperties encode t testId (form_values formOfStore) 0 props)
    as [rows|] eqn:Hrows; [|discriminate].
  injection H as <-. exists rows, formOfStore. simpl.
  destruct (renderProperties_rows _ _ _ _ _ _ _ Hrows) as [Hlen Hall].
  repeat split; [exact Hlen|]. intros k property Hk.
  destruct (Hall _ _ Hk) as (row & Hrow & Hrk). simpl in Hrow.
  unfold renderProperty, getFieldComponent in Hrow. unfold isToggle in *.
  destruct (bool_decide (prop_value property = "true")
            || bool_decide (prop_value property = "false")) eqn:Htoggle.
  - destruct (form_values formOfStore) as [values|]; [|discriminate].
    injection Hrow as <-.
    lazymatch type of Hrk with
    | _ = Some ?r =>
        exists r, (match prow_toggle r with
                   | Some f => f
                   | None => {| field_name := EmptyString; field_component := RenderInput;
                                field_type := EmptyString; field_required := false;
                                field_width := 0; field_placeholder := EmptyString;
                                field_testid := EmptyString; field_label := None |}
                   end)
    end.
    split; [exact Hrk|]. simpl.
    do 10 (split; [reflexivity|]). exists values. split; reflexivity.
  - injection Hrow as <-.
    lazymatch type of Hrk with
    | _ = Some ?r =>
        exists r, (match prow_control r with
                   | InputControl f => f
                   | ToggleCaption _ =>
                       {| field_name := EmptyString; field_component := RenderInput;
                          field_type := EmptyString; field_required := false;
                          field_width := 0; field_placeholder := EmptyString;
                          field_testid := EmptyString; field_label := None |}
                   end)
    end.
    split; [exact Hrk|]. simpl. repeat split.
Qed.

Lemma connector_form_rows_sample :
  let props :=
    [ {| prop_name := "Recovery.Notification.Enable"; prop_value := "true";
         prop_displayName := "Notify"; prop_description := EmptyString |};
      {| prop_name := "__secret__Recovery.Key"; prop_value := "abc";
         prop_displayName := "Key"; prop_description := "The key" |} ] in
  let store : gmap string FormState := {[ "recovery" := {| form_values := Some ∅ |} ]} in
  exists view rows,
    DynamicConnectorForm (fun name => name) Sample.t Sample.t "dynamic-connector-form"
      "recovery" (Some props) store = Some view /\
    cform_rows view = Some rows /\
    length rows = 2%nat.
Proof.
  intros props store.
  destruct (connector_form_rows (fun name => name) Sample.t Sample.t
              "dynamic-connector-form" "recovery" props store
              (default {| cform_rows := None; cform_submit := EmptyString |}
                 (DynamicConnectorForm (fun name => name) Sample.t Sample.t
                    "dynamic-connector-form" "recovery" (Some props) store)))
    as (rows & formOfStore & _ & Hrows & Hlen & _).
  - reflexivity.
  - eexists. exists rows. split; [reflexivity|]. split; [exact Hrows | exact Hlen].
Defined.

Lemma renderProperties_throws encode t testId formValues props :
  forall index,
    renderProperties encode t testId formValues index props = None <->
    formValues = None /\ exists property, property ∈ props /\ isToggle property = true.
Proof.
  induction props as [|property props IH]; intros index; simpl.
  - split; [discriminate|]. intros (_ & p & Hp & _). apply elem_of_nil in Hp. contradiction.
  - unfold renderProperty at 1.
    destruct (isToggle property) eqn:Htoggle; simpl.
    + destruct formValues as [values|]; simpl.
      * destruct (renderProperties encode t testId (Some values) (S index) props) eqn:Hrest;
          simpl; (split; [|intros [[=] _]]); [discriminate|].
        intros _. apply IH in Hrest as [[=] _].
      * split; [|reflexivity]. intros _. split; [reflexivity|].
        exists property. split; [left | exact Htoggle].
    + destruct (renderProperties encode t testId formValues (S index) props) eqn:Hrest;
        simpl.
      * split; [discriminate|]. intros (Hnone & p & Hp & Hpt).
        apply elem_of_cons in Hp as [->|Hp]; [congruence|].
        assert (renderProperties encode t testId formValues (S index) props = None) as Hn
          by (apply IH; eauto).
        congruence.
      * split; [|reflexivity]. intros _. apply IH in Hrest as (Hnone & p & Hp & Hpt).
        split; [exact Hnone|]. exists p. split; [right; exact Hp | exact Hpt].
Qed.

(** X19.  The connector form throws in two cases only: the store has no state
    for the form, or the form has no values yet and some property is a
    toggle.  Without values, a form of inputs only still renders. *)
Theorem connector_form_throws_iff encode t i18n testId form props formState :
  DynamicConnectorForm encode t i18n testId form (Some props) formState = None <->
  formState !! form = None \/
  exists formOfStore property,
    formState !! form = Some formOfStore /\
    form_values formOfStore = None /\
    property ∈ props /\
    isToggle property = true.
Proof.
  unfold DynamicConnectorForm.
  destruct (formState !! form) as [formOfStore|]; simpl.
  - destruct (renderProperties encode t testId (form_values formOfStore) 0 props)
      as [rows|] eqn:Hrows; simpl.
    + split; [discriminate|]. intros [[=]|(f & p & [= <-] & Hnone & Hp & Hpt)].
      assert (renderProperties encode t testId (form_values formOfStore) 0 props = None)
        as Hn by (apply renderProperties_throws; eauto).
      congruence.
    + split; [|reflexivity]. intros _. right.
      apply renderProperties_throws in Hrows as (Hnone & p & Hp & Hpt).
      exists formOfStore, p. auto.
  - split; [|reflexivity]. intros _. left. reflexivity.
Qed.

(** A form whose values the store does not hold yet: it renders with an
    input only, and throws once a toggle is among its properties. *)
Example connector_form_without_values :
  let input := {| prop_name := "Recovery.Key"; prop_value := "abc";
                  prop_displayName := "Key"; prop_description := EmptyString |} in
  let toggle := {| prop_name := "Recovery.Enable"; prop_value := "false";
                   prop_displayName := "Enable"; prop_description := EmptyString |} in
  let store : gmap string FormState := {[ "recovery" := {| form_values := None |} ]} in
  is_Some (DynamicConnectorForm (fun name => name) Sample.t Sample.t "form" "recovery"
             (Some [input]) store) /\
  DynamicConnectorForm (fun name => name) Sample.t Sample.t "form" "recovery"
    (Some [input; toggle]) store = None /\
  DynamicConnectorForm (fun name => name) Sample.t Sample.t "form" "other"
    (Some [input]) store = None.
Proof. repeat split. eexists. reflexivity. Qed.

(** ** More on the merge by id *)

Section MergeByIdMore.

Context {T W : Type}.
Variable mergeResource : T -> T -> T.
Variable mergeWizardHelp : W -> W -> W.

Lemma entryFor_elem (collection : list (TemplateConfigInterface T W)) key entry :
  entryFor key collection = Some entry -> entry ∈ collection /\ id entry = key.
Proof.
  intros H. split; [|exact (entryFor_id _ _ _ H)].
  unfold entryFor in H. apply last_Some in H as [prefix H].
  apply list_elem_of_In.
  apply (proj1 (List.filter_In (fun e => bool_decide (id e = key)) entry collection)).
  rewrite H. apply in_or_app. right. left. reflexivity.
Qed.

Lemma entryFor_is_Some (collection : list (TemplateConfigInterface T W)) key :
  is_Some (entryFor key collection) <-> key ∈ id <$> collection.
Proof.
  split.
  - intros [entry H]. apply entryFor_elem in H as [Hin <-].
    apply list_elem_of_fmap_2. exact Hin.
  - intros H. apply list_elem_of_fmap in H as (entry & -> & Hin).
    unfold entryFor.
    destruct (List.filter (fun e => bool_decide (id e = id entry)) collection)
      as [|x l] eqn:Hfilter using rev_ind.
    + exfalso. apply list_elem_of_In in Hin.
      assert (List.In entry
                (List.filter (fun e => bool_decide (id e = id entry)) collection)) as Hf
        by (apply List.filter_In; split; [exact Hin | apply bool_decide_eq_true_2; reflexivity]).
      rewrite Hfilter in Hf. exact Hf.
    + rewrite last_snoc. eexists. reflexivity.
Qed.

Lemma entryFor_None (collection : list (TemplateConfigInterface T W)) key :
  entryFor key collection = None <-> key ∉ id <$> collection.
Proof.
  rewrite <- entryFor_is_Some, eq_None_not_Some. reflexivity.
Qed.

Lemma entryFor_NoDup (collection : list (TemplateConfigInterface T W)) entry :
  NoDup (id <$> collection) ->
  entry ∈ collection ->
  entryFor (id entry) collection = Some entry.
Proof.
  intros Hnodup Hin.
  destruct (entryFor (id entry) collection) as [other|] eqn:Hother.
  - apply entryFor_elem in Hother as [Hoin Hoid]. f_equal.
    apply list_elem_of_lookup in Hin as [i Hi]. apply list_elem_of_lookup in Hoin as [j Hj].
    assert (i = j) as ->.
    { apply (NoDup_lookup (id <$> collection) i j (id entry)); [exact Hnodup| |].
      - rewrite list_lookup_fmap, Hi. reflexivity.
      - rewrite list_lookup_fmap, Hj. simpl. rewrite Hoid. reflexivity. }
    congruence.
  - apply entryFor_None in Hother. exfalso. apply Hother.
    apply list_elem_of_fmap_2. exact Hin.
Qed.

Lemma elem_of_mergeById builtIn extension entry :
  entry ∈ mergeById mergeResource mergeWizardHelp builtIn extension <->
  merge mergeResource mergeWizardHelp (keyBy builtIn) (keyBy extension) !! id entry
    = Some entry.
Proof.
  unfold mergeById, values_. rewrite list_elem_of_fmap. split.
  - intros ([key entry'] & -> & Hin). apply elem_of_map_to_list in Hin. simpl.
    rewrite (merge_keyBy_id _ _ _ _ _ _ Hin). exact Hin.
  - intros H. exists (id entry, entry). split; [reflexivity|].
    apply elem_of_map_to_list. exact H.
Qed.

Lemma mergeById_ids builtIn extension key :
  key ∈ id <$> mergeById mergeResource mergeWizardHelp builtIn extension <->
  is_Some (merge mergeResource mergeWizardHelp (keyBy builtIn) (keyBy extension) !! key).
Proof.
  split.
  - intros H. apply list_elem_of_fmap in H as (entry & -> & Hin).
    apply elem_of_mergeById in Hin. eauto.
  - intros [entry H]. pose proof (merge_keyBy_id _ _ _ _ _ _ H) as <-.
    apply list_elem_of_fmap_2, elem_of_mergeById, H.
Qed.

(** The ids of the result are the ids of the built-in entries together with
    the ids of the extension's entries other than [__proto__]. *)
Lemma merged_ids builtIn extension key :
  key ∈ id <$> mergeById mergeResource mergeWizardHelp builtIn extension <->
  key ∈ id <$> builtIn \/ (key <> "__proto__" /\ key ∈ id <$> extension).
Proof.
  rewrite mergeById_ids, merge_lookup, !keyBy_lookup.
  rewrite <- (entryFor_is_Some builtIn), <- (entryFor_is_Some extension).
  unfold is_Some.
  case_bool_decide as Hkey;
    destruct (entryFor key builtIn) as [b|], (entryFor key extension) as [x|];
    naive_solver.
Qed.

(** Without extension entries, built-in entries of distinct ids come out as
    they are, none lost, none changed, in some order. *)
Lemma merge_without_extensions builtIn :
  NoDup (id <$> builtIn) ->
  mergeById mergeResource mergeWizardHelp builtIn [] ≡ₚ builtIn.
Proof.
  intros Hnodup.
  destruct (mergeById_MergedById mergeResource mergeWizardHelp builtIn [])
    as [Hresult _].
  apply NoDup_Permutation.
  - exact (NoDup_fmap_1 _ _ Hresult).
  - exact (NoDup_fmap_1 _ _ Hnodup).
  - intros entry. rewrite elem_of_mergeById, merge_lookup, !keyBy_lookup.
    change (entryFor (id entry) []) with (@None (TemplateConfigInterface T W)).
    assert ((if bool_decide (id entry = "__proto__")
             then None else @None (TemplateConfigInterface T W)) = None) as ->
      by (case_bool_decide; reflexivity).
    split.
    + destruct (entryFor (id entry) builtIn) as [b|] eqn:Hb; [|discriminate].
      intros [= ->]. exact (proj1 (entryFor_elem _ _ _ Hb)).
    + intros Hin. rewrite (entryFor_NoDup _ _ Hnodup Hin). reflexivity.
Qed.

(** The entry of the result for the id of a built-in entry. *)
Lemma merge_builtin_entry builtIn extension key b :
  entryFor key builtIn = Some b ->
  exists merged,
    merged ∈ mergeById mergeResource mergeWizardHelp builtIn extension /\
    id merged = key /\
    match (if bool_decide (key = "__proto__") then None else entryFor key extension) with
    | Some x => merged = mergeEntry mergeResource mergeWizardHelp b x
    | None => merged = b
    end.
Proof.
  intros Hb.
  assert (exists merged,
            merge mergeResource mergeWizardHelp (keyBy builtIn) (keyBy extension) !! key
              = Some merged /\
            match (if bool_decide (key = "__proto__")
                   then None else entryFor key extension) with
            | Some x => merged = mergeEntry mergeResource mergeWizardHelp b x
            | None => merged = b
            end) as (merged & Hmerged & Hshape).
  { rewrite merge_lookup, !keyBy_lookup, Hb.
    destruct (if bool_decide (key = "__proto__") then None else entryFor key extension);
      eexists; split; reflexivity. }
  exists merged. pose proof (merge_keyBy_id _ _ _ _ _ _ Hmerged) as Hid.
  split; [apply elem_of_mergeById; rewrite Hid; exact Hmerged|].
  split; [exact Hid | exact Hshape].
Qed.

End MergeByIdMore.

Section ConfigMore.

Context {G A W : Type}.
Variable groupId : G -> string.
Variable templateId : A -> string.
Variable mergeGroup : G -> G -> G.
Variable mergeTemplate : A -> A -> A.
Variable mergeWizardHelp : W -> W -> W.
Variables web desktop mobile : G.
Variables android oidc saml spa windows custom : A.
Variables androidHelp oidcHelp samlHelp spaHelp windowsHelp customHelp : W.
Variable extensionsConfig : ApplicationTemplatesConfigInterface G A W.

Let config : ApplicationTemplatesConfigInterface G A W :=
  getApplicationTemplatesConfig groupId templateId mergeGroup mergeTemplate
    mergeWizardHelp web desktop mobile android oidc saml spa windows custom
    androidHelp oidcHelp samlHelp spaHelp windowsHelp customHelp extensionsConfig.

Let builtInIds : list string :=
  templateId <$> [android; oidc; saml; spa; windows; custom].

(** X20.  The template ids of the configuration are the ids of the six
    built-in templates together with the ids of the extension's templates
    other than [__proto__]: an extension cannot remove a built-in template,
    no id is invented, and an extension template of id [__proto__] is left
    out unless a built-in template has that id. *)
Theorem config_template_ids key :
  key ∈ id <$> templates config <->
  key ∈ builtInIds \/
  (key <> "__proto__" /\ key ∈ id <$> templates extensionsConfig).
Proof.
  unfold config, getApplicationTemplatesConfig. simpl.
  rewrite merged_ids. reflexivity.
Qed.

(** X21.  With no extension entries and built-in ids that differ, the
    configuration holds exactly the built-in groups and templates, each as
    declared, in some order. *)
Theorem config_without_extensions :
  groups extensionsConfig = [] ->
  templates extensionsConfig = [] ->
  NoDup (groupId <$> [web; desktop; mobile]) ->
  NoDup builtInIds ->
  groups config ≡ₚ builtInGroups groupId web desktop mobile /\
  templates config ≡ₚ
    builtInTemplates templateId android oidc saml spa windows custom
      androidHelp oidcHelp samlHelp spaHelp windowsHelp customHelp.
Proof.
  intros Hgroups Htemplates Hgid Htid.
  unfold config, getApplicationTemplatesConfig. simpl. rewrite Hgroups, Htemplates.
  split; apply merge_without_extensions; assumption.
Qed.

(** X22.  Whatever the extensions provide, the id of each built-in template
    is still in the configuration, and its entry comes from a built-in
    template of that id, with resource [r] and wizard help [h].  Without an
    extension entry of the id, or for the id [__proto__], the entry is the
    built-in one.  With one, [enabled] is the extension's, and each of
    [resource] and [wizardHelp] is the built-in's where the extension
    leaves it undefined, [null] where the extension sets [null], and the
    extension's value merged over the built-in's otherwise. *)
Theorem config_keeps_builtin_templates template :
  template ∈ [android; oidc; saml; spa; windows; custom] ->
  exists merged r h,
    merged ∈ templates config /\
    id merged = templateId template /\
    builtInTemplate templateId r h ∈
      builtInTemplates templateId android oidc saml spa windows custom
        androidHelp oidcHelp samlHelp spaHelp windowsHelp customHelp /\
    templateId r = templateId template /\
    match (if bool_decide (templateId template = "__proto__")
           then None
           else entryFor (templateId template) (templates extensionsConfig)) with
    | None =>
        enabled merged = true /\
        resource merged = Defined r /\
        wizardHelp merged = Defined h
    | Some x =>
        enabled merged = enabled x /\
        resource merged =
          match resource x with
          | Undefined => Defined r
          | Null => Null
          | Defined s => Defined (mergeTemplate r s)
          end /\
        wizardHelp merged =
          match wizardHelp x with
          | Undefined => Defined h
          | Null => Null
          | Defined s => Defined (mergeWizardHelp h s)
          end
    end.
Proof.
  intros Hin.
  set (builtIn := builtInTemplates templateId android oidc saml spa windows custom
                    androidHelp oidcHelp samlHelp spaHelp windowsHelp customHelp).
  assert (is_Some (entryFor (templateId template) builtIn)) as [b Hb].
  { apply entryFor_is_Some. exact (list_elem_of_fmap_2 templateId _ _ Hin). }
  destruct (entryFor_elem _ _ _ Hb) as [Hbin Hbid].
  assert (exists r h, b = builtInTemplate templateId r h) as (r & h & ->).
  { unfold builtIn, builtInTemplates in Hbin.
    repeat (apply elem_of_cons in Hbin as [->|Hbin]; [eauto|]).
    apply elem_of_nil in Hbin. contradiction. }
  destruct (merge_builtin_entry mergeTemplate mergeWizardHelp builtIn
              (templates extensionsConfig) _ _ Hb) as (merged & Hmerged & Hid & Hshape).
  exists merged, r, h. split; [exact Hmerged|]. split; [exact Hid|].
  split; [exact Hbin|]. split; [exact Hbid|].
  destruct (if bool_decide (templateId template = "__proto__")
            then None
            else entryFor (templateId template) (templates extensionsConfig)) as [x|];
    subst merged; simpl.
  - repeat split; destruct (resource x), (wizardHelp x); reflexivity.
  - repeat split.
Qed.

End ConfigMore.

Lemma config_without_extensions_sample :
  let config :=
    getApplicationTemplatesConfig (fun g : string => g) (fun a : string => a)
      Sample.both Sample.both Sample.both "web" "desktop" "mobile"
      "android" "oidc" "saml" "spa" "windows" "custom"
      "h1" "h2" "h3" "h4" "h5" "h6" {| groups := []; templates := [] |} in
  groups config ≡ₚ builtInGroups (fun g : string => g) "web" "desktop" "mobile" /\
  templates config ≡ₚ
    builtInTemplates (fun a : string => a) "android" "oidc" "saml" "spa" "windows" "custom"
      "h1" "h2" "h3" "h4" "h5" "h6".
Proof.
  apply (config_without_extensions (fun g : string => g) (fun a : string => a)
           Sample.both Sample.both Sample.both "web" "desktop" "mobile"
           "android" "oidc" "saml" "spa" "windows" "custom"
           "h1" "h2" "h3" "h4" "h5" "h6" {| groups := []; templates := [] |}).
  - reflexivity.
  - reflexivity.
  - refine (bool_decide_unpack _ _). vm_compute. exact I.
  - refine (bool_decide_unpack _ _). vm_compute. exact I.
Defined.

(** An extension that switches "saml" off, leaving its resource undefined
    and setting its wizard help to [null]. *)
Lemma config_keeps_builtin_templates_sample :
  let extension :=
    {| groups := [];
       templates := [ {| enabled := false; id := "saml"; resource := Undefined;
                         wizardHelp := Null |} ] |} in
  exists merged,
    merged ∈ templates
      (getApplicationTemplatesConfig (fun g : string => g) (fun a : string => a)
         Sample.both Sample.both Sample.both "web" "desktop" "mobile"
         "android" "oidc" "saml" "spa" "windows" "custom"
         "h1" "h2" "h3" "h4" "h5" "h6" extension) /\
    id merged = "saml" /\
    enabled merged = false /\
    resource merged = Defined "saml" /\
    wizardHelp merged = Null.
Proof.
  intros extension.
  destruct (config_keeps_builtin_templates (fun g : string => g) (fun a : string => a)
              Sample.both Sample.both Sample.both "web" "desktop" "mobile"
              "android" "oidc" "saml" "spa" "windows" "custom"
              "h1" "h2" "h3" "h4" "h5" "h6" extension "saml")
    as (merged & r & h & Hmerged & Hid & _ & Hr & Henabled & Hresource & Hhelp).
  - set_solver.
  - exists merged. simpl in Hr. subst r. auto.
Defined.
